(** * smart_mirror: the frame source, the thermal conversions, the ambient
      poller and the display loop of [main.py]

    The Python functions of [src/main.py] are embedded as Rocq functions.
    Python floats are IEEE binary64 values, here Rocq's primitive [float];
    numpy arrays are references into a store of flat cell lists, so that a
    view and the buffer it was made from share their cells; the clock and
    the two sensors are streams the program reads one value at a time. *)

From Stdlib Require Import ZArith List Bool Lia.
From Stdlib Require Import Floats.
From stdpp Require Import base option list gmap strings pretty.
Import ListNotations.

Local Open Scope Z_scope.
Local Set Warnings "-inexact-float".

(** * Part I: the program *)

(** ** Python values and calls *)

Module Py.

(** The exceptions the embedded code can raise. *)
Inductive exn : Type :=
  | ZeroDivisionError
  | IndexError
  | TypeError
  | AttributeError
  | Empty.

(** How a call ends: it returns, it raises, or it waits for ever. *)
Inductive outcome (A : Type) : Type :=
  | Done (a : A)
  | Raises (e : exn)
  | Blocks.
Arguments Done {A} a.
Arguments Raises {A} e.
Arguments Blocks {A}.

(** [x / y] on floats: a zero divisor raises [ZeroDivisionError]. *)
Definition truediv (x y : float) : outcome float :=
  if PrimFloat.eqb y 0%float then Raises ZeroDivisionError
  else Done (PrimFloat.div x y).

(** A Python number whose value is the integer [n], for [0 <= n < 2^63]. *)
Definition of_int (n : Z) : float := PrimFloat.of_uint63 (Uint63.of_Z n).

(** [round(x, ndigits)] on a float, for the [ndigits] the program uses (1
    and 2): the decimal with [ndigits] places nearest to the exact value of
    [x], ties to even, converted back to the nearest float. A float too
    large to have a fractional part at that scale rounds to itself. *)
Definition round (x : float) (ndigits : Z) : float :=
  match Prim2SF x with
  | S754_finite s m e =>
      let p := 10 ^ ndigits in
      let num := Z.pos m * p * 2 ^ Z.max e 0 in
      let den := 2 ^ Z.max (- e) 0 in
      let q := num / den in
      let r2 := 2 * (num mod den) in
      let n := if r2 <? den then q
               else if den <? r2 then q + 1
               else if Z.even q then q else q + 1 in
      if 2 ^ 53 <=? n then x
      else
        let y := PrimFloat.div (of_int n) (of_int p) in
        if s then PrimFloat.opp y else y
  | _ => x
  end.

(** [forall_range f lo n]: [f] holds at [lo], [lo+1], ..., [lo+n-1]. *)
Fixpoint forall_range (f : Z -> bool) (lo : Z) (n : nat) : bool :=
  match n with
  | O => true
  | S n' => f lo && forall_range f (lo + 1) n'
  end.

End Py.

Import Py.

(** ** [queue.Queue] *)

Module Queue.

Record t (A : Type) : Type := mk { maxsize : Z; items : list A }.
Arguments mk {A} maxsize items.
Arguments maxsize {A} _.
Arguments items {A} _.

(** [Queue(maxsize)] *)
Definition new {A : Type} (maxsize : Z) : t A := mk maxsize [].

Definition qsize {A : Type} (q : t A) : Z := Z.of_nat (length (items q)).

(** [q.full()]: [0 < maxsize <= qsize]. *)
Definition full {A : Type} (q : t A) : bool :=
  (0 <? maxsize q) && (maxsize q <=? qsize q).

(** [q.put(item)] with the default [block=True, timeout=None]: waits while
    the queue is full, else appends on the right. *)
Definition put {A : Type} (item : A) (q : t A) : outcome (t A) :=
  if full q then Blocks else Done (mk (maxsize q) (items q ++ [item])).

(** [q.get(True, timeout)]: takes the leftmost item; [queue.Empty] when the
    timeout passes on an empty queue. *)
Definition get {A : Type} (q : t A) : outcome (A * t A) :=
  match items q with
  | [] => Raises Empty
  | x :: rest => Done (x, mk (maxsize q) rest)
  end.

End Queue.

(** ** Arrays and the memory they live in *)

Abbreviation addr := positive.

(** The cells of every live buffer, flat and row-major. *)
Abbreviation store := (gmap positive (list Z)).

Module Np.

Inductive dtype : Type := uint8 | uint16.

(** A numpy array object: where its cells are, and how they are read. *)
Record ndarray : Type := mk { base : addr; shape : list Z; dt : dtype }.

(** [np.frombuffer(buf, dtype=dt)]: a one-dimensional view of [count] cells
    onto the memory of [buf]; nothing is copied. *)
Definition frombuffer (buf : addr) (count : Z) (dt : dtype) : ndarray :=
  mk buf [count] dt.

(** [a.reshape(h, w)]: a view with another shape onto the same memory. *)
Definition reshape (a : ndarray) (h w : Z) : ndarray :=
  mk (base a) [h; w] (dt a).

(** The cells an array shows at the moment it is read. *)
Definition cells (m : store) (a : ndarray) : option (list Z) := m !! base a.



End Np.

(** ** The OpenCV calls of [raw_to_8bit] *)

Module Cv2.






End Cv2.

(** ** The frame source *)

(** Modelled from the spec: the frame structure of [uvctypes] is not part of
    the sources at hand; these are the four fields [py_frame_callback]
    reads, the payload pointer, the reported byte length and the negotiated
    width and height. *)
Record uvc_frame : Type := mk_frame {
  data : addr;
  data_bytes : Z;
  width : Z;
  height : Z
}.

(** [BUF_SIZE = 10] *)
Definition BUF_SIZE : Z := 10.

(** [q = Queue(BUF_SIZE)] *)
Definition q0 : Queue.t Np.ndarray := Queue.new BUF_SIZE.

(** The array [py_frame_callback] builds from a frame: [cast] reinterprets
    the payload pointer, [np.frombuffer] and [reshape] make views of it. *)
Definition frame_array (frame : uvc_frame) : Np.ndarray :=
  let array_pointer := data frame in
  Np.reshape
    (Np.frombuffer array_pointer (width frame * height frame) Np.uint16)
    (height frame) (width frame).

(** The reported byte length of a frame matches its size. *)
Definition well_formed (f : uvc_frame) : Prop :=
  data_bytes f = 2 * width f * height f.

(** [def py_frame_callback(frame, userptr)], on the global queue [q]. *)
Definition py_frame_callback (frame : uvc_frame) (q : Queue.t Np.ndarray)
  : outcome (Queue.t Np.ndarray) :=
  let data := frame_array frame in
  if negb (data_bytes frame =? 2 * width frame * height frame) then Done q
  else if negb (Queue.full q) then Queue.put data q
  else Done q.

(** The driver delivers one frame after the other. *)
Fixpoint deliver (frames : list uvc_frame) (q : Queue.t Np.ndarray)
  : outcome (Queue.t Np.ndarray) :=
  match frames with
  | [] => Done q
  | f :: rest =>
      match py_frame_callback f q with
      | Done q' => deliver rest q'
      | Raises e => Raises e
      | Blocks => Blocks
      end
  end.

(** The driver reuses a buffer: it writes the next payload over the last. *)
Definition driver_write (p : addr) (payload : list Z) (m : store) : store :=
  <[p := payload]> m.

(** ** Temperature conversions *)

(** [def ktoc(val): return (val - 27315) / 100.0] *)
Definition ktoc (val : float) : outcome float :=
  truediv (PrimFloat.sub val 27315%float) 100%float.

(** [def ktof(val): return (1.8 * ktoc(val) + 32.0)] *)
Definition ktof (val : float) : outcome float :=
  match ktoc val with
  | Done c => Done (PrimFloat.add (PrimFloat.mul 1.8%float c) 32%float)
  | Raises e => Raises e
  | Blocks => Blocks
  end.

(** The formula of the specification, written out on floats. *)
Definition fahrenheit (raw : Z) : float :=
  PrimFloat.add
    (PrimFloat.mul 1.8%float
       (PrimFloat.div (PrimFloat.sub (of_int raw) 27315%float) 100%float))
    32%float.

(** On two consecutive raw codes the Fahrenheit values are finite and in
    order. *)
Definition ktof_step_ok (raw : Z) : bool :=
  match ktof (of_int raw), ktof (of_int (raw + 1)) with
  | Done a, Done b =>
      PrimFloat.leb a b && PrimFloat.is_finite a && PrimFloat.is_finite b
  | _, _ => false
  end.

(** ** The thermal processor *)


(** ** Settings *)

Record Settings : Type := {
  use_humidity_sensor : bool;
  display_host_ip : bool;
  display_sleep_timer : bool;
  display_debug_panel : bool;
  sleep_timeout_sec : float;
  screen_max_frame_time_sec : float;
  ambient_temp_delay_sec : float
}.

(** The [settings] dictionary of [main.py]. *)
Definition settings : Settings := {|
  use_humidity_sensor := true;
  display_host_ip := true;
  display_sleep_timer := true;
  display_debug_panel := true;
  sleep_timeout_sec := 10%float;
  screen_max_frame_time_sec := 0.033%float;
  ambient_temp_delay_sec := 5%float
|}.

(** ** The world the render loop acts on *)

(** What the hardware and the clock will answer: the [n]-th call of
    [time.time()], of [tmpsensor.sense()] (humidity, temperature) and of
    [motion_sensor.sense()]. *)
Record Devices : Type := {
  clock : nat -> float;
  tmpsensor : nat -> float * float;
  motion_sensor : nat -> bool
}.

(** The data set shown in the data panel: [0] before the first poll, then
    the dictionary [{"temp": temp, "hum": hum}]. *)
Inductive DataSet : Type :=
  | NoData (z : Z)
  | Reading (temp hum : float).

(** Calls into the window toolkit, in the order they are made. *)
Inductive GuiCall : Type :=
  | KillGui
  | ShowGui
  | UpdateStringPointers (temp hum : float)
  | SetSleepTimer (time_str : float)
  | UpdateIdletasks
  | Update
  | Sleep (sec : float).

(** How often each device was read so far, which panels are packed (shown),
    and the toolkit calls made. *)
Record World : Type := {
  clock_reads : nat;
  temp_reads : nat;
  motion_reads : nat;
  packed : list bool;
  calls : list GuiCall
}.

(** A computation of the render loop: it changes the world and returns,
    raises or blocks. *)
Definition M (A : Type) : Type := World -> outcome (A * World).

Definition ret {A : Type} (a : A) : M A := fun w => Done (a, w).

Definition bind {A B : Type} (c : M A) (k : A -> M B) : M B :=
  fun w =>
    match c w with
    | Done (a, w') => k a w'
    | Raises e => Raises e
    | Blocks => Blocks
    end.

Definition raise {A : Type} (e : exn) : M A := fun _ => Raises e.

Declare Scope loop_scope.
Delimit Scope loop_scope with loop.
Notation "x <~ c ;; k" := (bind c (fun x => k))
  (at level 100, c at level 99, k at level 200, right associativity,
   format "'[v' x  <~  c  ;; '/' k ']'") : loop_scope.
Notation "c ;;; k" := (bind c (fun _ => k))
  (at level 100, k at level 200, right associativity,
   format "'[v' c  ;;; '/' k ']'") : loop_scope.
Local Open Scope loop_scope.

Section Loop.

Variable cfg : Settings.
Variable dev : Devices.

(** [time.time()] *)
Definition time_time : M float := fun w =>
  Done (clock dev (clock_reads w),
        {| clock_reads := S (clock_reads w); temp_reads := temp_reads w;
           motion_reads := motion_reads w; packed := packed w;
           calls := calls w |}).

(** [tmpsensor.sense()] *)
Definition tmpsensor_sense : M (float * float) := fun w =>
  Done (tmpsensor dev (temp_reads w),
        {| clock_reads := clock_reads w; temp_reads := S (temp_reads w);
           motion_reads := motion_reads w; packed := packed w;
           calls := calls w |}).

(** [def movement(motion_sensor): return motion_sensor.sense()] *)
Definition movement : M bool := fun w =>
  Done (motion_sensor dev (motion_reads w),
        {| clock_reads := clock_reads w; temp_reads := temp_reads w;
           motion_reads := S (motion_reads w); packed := packed w;
           calls := calls w |}).

(** One toolkit call is made and recorded. *)
Definition gui (c : GuiCall) : M unit := fun w =>
  Done (tt,
        {| clock_reads := clock_reads w; temp_reads := temp_reads w;
           motion_reads := motion_reads w; packed := packed w;
           calls := calls w ++ [c] |}).

(** [gui_elements[i].pack_forget()] and [gui_elements[i].pack(...)]: the
    panel is taken off, or put on, the window; an index past the end of the
    list raises [IndexError]. *)
Definition set_packed (i : nat) (b : bool) : M unit := fun w =>
  match packed w !! i with
  | Some _ =>
      Done (tt,
            {| clock_reads := clock_reads w; temp_reads := temp_reads w;
               motion_reads := motion_reads w; packed := <[i := b]> (packed w);
               calls := calls w |})
  | None => Raises IndexError
  end.

(** [def get_ambient_temp_data(tmpsensor, last_req_time, last_data_set)] *)
Definition get_ambient_temp_data (last_req_time : float) (last_data_set : DataSet)
  : M (DataSet * float) :=
  now <~ time_time ;;
  if PrimFloat.ltb (ambient_temp_delay_sec cfg) (PrimFloat.sub now last_req_time)
  then
    ht <~ tmpsensor_sense ;;
    let hum := round (fst ht) 2 in
    let temp := round (snd ht) 2 in
    let last_data_set := Reading temp hum in
    last_req_time <~ time_time ;;
    ret (last_data_set, last_req_time)
  else ret (last_data_set, last_req_time).

(** [def update_string_pointers(string_pointers, data_set)]: every label
    reads its value with [data_set[attr]], which an integer does not
    support. *)
Definition update_string_pointers (data_set : DataSet) : M unit :=
  match data_set with
  | Reading temp hum => gui (UpdateStringPointers temp hum)
  | NoData _ => raise TypeError
  end.

(** [def kill_gui(gui_elements)] *)
Definition kill_gui : M unit :=
  gui KillGui ;;;
  set_packed 0 false ;;;
  set_packed 1 false ;;;
  if display_debug_panel cfg then set_packed 2 false else ret tt.

(** [def show_gui(gui_elements)] *)
Definition show_gui : M unit :=
  gui ShowGui ;;;
  set_packed 0 true ;;;
  set_packed 1 true ;;;
  if display_debug_panel cfg then set_packed 2 true else ret tt.

(** The local variables of the main program that the loop reads and
    assigns. *)
Record Locals : Type := {
  data_set : DataSet;
  last_ambient_temp_req_time : float;
  is_gui_shown : bool;
  start_time : float
}.

(** The two branches of the loop body: the timer has not run out, or it
    has. *)
Inductive DisplayState : Type := ACTIVE | PASSIVE.

(** The test at the head of the loop body, on the clock value read there. *)
Definition display_state (now : float) (l : Locals) : DisplayState :=
  if PrimFloat.ltb (PrimFloat.sub now (start_time l)) (sleep_timeout_sec cfg)
  then ACTIVE else PASSIVE.

(** The branch [if time_passed < settings["sleep_timeout_sec"]]. *)
Definition active_branch (time_passed : float) (l : Locals) : M Locals :=
  dl <~ get_ambient_temp_data (last_ambient_temp_req_time l) (data_set l) ;;
  update_string_pointers (fst dl) ;;;
  (if display_debug_panel cfg && display_sleep_timer cfg
   then gui (SetSleepTimer (round time_passed 1)) else ret tt) ;;;
  motion <~ movement ;;
  if motion
  then
    t <~ time_time ;;
    ret {| data_set := fst dl; last_ambient_temp_req_time := snd dl;
           is_gui_shown := is_gui_shown l; start_time := t |}
  else
    ret {| data_set := fst dl; last_ambient_temp_req_time := snd dl;
           is_gui_shown := is_gui_shown l; start_time := start_time l |}.

(** The [else] branch. *)
Definition passive_branch (l : Locals) : M Locals :=
  (if is_gui_shown l then kill_gui else ret tt) ;;;
  motion <~ movement ;;
  if motion
  then
    show_gui ;;;
    t <~ time_time ;;
    ret {| data_set := data_set l;
           last_ambient_temp_req_time := last_ambient_temp_req_time l;
           is_gui_shown := is_gui_shown l; start_time := t |}
  else ret l.

(** One turn of [while True]. The block of the ACTIVE branch that takes a
    frame from [q] and shows it is commented out in the source, so a turn
    does not use the queue. *)
Definition loop_body (l : Locals) : M Locals :=
  now <~ time_time ;;
  let time_passed := PrimFloat.sub now (start_time l) in
  l' <~ (if PrimFloat.ltb time_passed (sleep_timeout_sec cfg)
         then active_branch time_passed l
         else passive_branch l) ;;
  gui UpdateIdletasks ;;;
  gui Update ;;;
  gui (Sleep (screen_max_frame_time_sec cfg)) ;;;
  ret l'.

(** [n] turns of the loop. *)
Fixpoint loop (n : nat) (l : Locals) : M Locals :=
  match n with
  | O => ret l
  | S n' => l' <~ loop_body l ;; loop n' l'
  end.

(** The world when the program starts: nothing read, no window yet. *)
Definition world0 : World :=
  {| clock_reads := 0; temp_reads := 0; motion_reads := 0;
     packed := []; calls := [] |}.

(** The panels are built and packed: the heat image panel, the data panel
    (whose labels are made from [data_set.items()], which an integer does
    not have) and, if enabled, the debug panel. *)
Definition build_panels (data_set : DataSet) : M unit := fun w =>
  match data_set with
  | Reading _ _ =>
      Done (tt,
            {| clock_reads := clock_reads w; temp_reads := temp_reads w;
               motion_reads := motion_reads w;
               packed := [true; true] ++
                         (if display_debug_panel cfg then [true] else []);
               calls := calls w |})
  | NoData _ => Raises AttributeError
  end.

(** The main program up to the head of the loop. *)
Definition boot : M Locals :=
  let last_ambient_temp_req_time := 0%float in
  let data_set := NoData 0 in
  dl <~ get_ambient_temp_data last_ambient_temp_req_time data_set ;;
  build_panels (fst dl) ;;;
  let is_gui_shown := true in
  start_time <~ time_time ;;
  ret {| data_set := fst dl; last_ambient_temp_req_time := snd dl;
         is_gui_shown := is_gui_shown; start_time := start_time |}.

(** The whole program for [n] turns of the loop. *)
Definition main (n : nat) : outcome (Locals * World) :=
  (l <~ boot ;; loop n l) world0.

End Loop.

(** ** The frame source and the render loop together *)

(** What can happen next: the driver delivers a frame (the callback runs on
    the capture thread), or the render loop makes one turn. The two touch
    different variables, so each is taken as one step. *)
Inductive Event : Type :=
  | FrameDelivered (frame : uvc_frame)
  | LoopTurn.

Record Program : Type := {
  q : Queue.t Np.ndarray;
  locals : Locals;
  world : World
}.

Definition step (cfg : Settings) (dev : Devices) (e : Event) (p : Program)
  : outcome Program :=
  match e with
  | FrameDelivered frame =>
      match py_frame_callback frame (q p) with
      | Done q' => Done {| q := q'; locals := locals p; world := world p |}
      | Raises _ =>
          (* ctypes prints an exception of a callback and goes on *)
          Done p
      | Blocks => Blocks
      end
  | LoopTurn =>
      match loop_body cfg dev (locals p) (world p) with
      | Done (l', w') => Done {| q := q p; locals := l'; world := w' |}
      | Raises e => Raises e
      | Blocks => Blocks
      end
  end.

Fixpoint run (cfg : Settings) (dev : Devices) (es : list Event) (p : Program)
  : outcome Program :=
  match es with
  | [] => Done p
  | e :: rest =>
      match step cfg dev e p with
      | Done p' => run cfg dev rest p'
      | Raises e => Raises e
      | Blocks => Blocks
      end
  end.

(** How many toolkit calls of one kind were made. *)
Definition is_kill (c : GuiCall) : bool :=
  match c with KillGui => true | _ => false end.
Definition is_show (c : GuiCall) : bool :=
  match c with ShowGui => true | _ => false end.
Definition count_calls (f : GuiCall -> bool) (w : World) : nat :=
  length (List.filter f (calls w)).

(** The panel list is the one the main program builds: two panels, and the
    debug panel if it is enabled. *)
Definition panels_built (cfg : Settings) (w : World) : Prop :=
  length (packed w) = if display_debug_panel cfg then 3%nat else 2%nat.

(** The data set is a dictionary, as it is once the first poll is made. *)
Definition has_reading (l : Locals) : Prop :=
  exists temp hum, data_set l = Reading temp hum.

(** The three toolkit calls that end every turn. *)
Definition turn_end (cfg : Settings) : list GuiCall :=
  [UpdateIdletasks; Update; Sleep (screen_max_frame_time_sec cfg)].

(** The label update a data set leads to. *)
Definition label_calls (ds : DataSet) : list GuiCall :=
  match ds with
  | Reading temp hum => [UpdateStringPointers temp hum]
  | NoData _ => []
  end.

(** Nobody moves during the next [n] readings of the motion sensor. *)
Definition no_motion (dev : Devices) (w : World) (n : nat) : Prop :=
  forall i, (motion_reads w <= i < motion_reads w + n)%nat ->
            motion_sensor dev i = false.

(** ** Rooms, frames and grids to run the program on *)


(** A 2 x 2 frame at address 1, and the same frame reporting one byte too
    few. *)
Definition frame1 : uvc_frame :=
  {| data := 1%positive; data_bytes := 8; width := 2; height := 2 |}.

(** Frame number [i]: a 2 x 2 frame at address [i]. *)
Definition frame_at (i : positive) : uvc_frame :=
  {| data := i; data_bytes := 8; width := 2; height := 2 |}.
Definition twelve_frames : list uvc_frame :=
  map frame_at [1; 2; 3; 4; 5; 6; 7; 8; 9; 10; 11; 12]%positive.

(** The program in the middle of its run, the buffer still empty. *)
Definition program1 : Program :=
  {| q := q0;
     locals := {| data_set := Reading 21.5%float 40%float;
                  last_ambient_temp_req_time := 100%float;
                  is_gui_shown := true;
                  start_time := 100%float |};
     world := {| clock_reads := 0; temp_reads := 0; motion_reads := 0;
                 packed := [true; true; true]; calls := [] |} |}.

(** A clock that starts at 100 s and gains a tenth of a second per reading,
    a sensor that always reads 40.123 % and 21.456 degrees, and nobody
    moving. *)
Definition quiet_room : Devices :=
  {| clock := fun n => PrimFloat.add 100%float
                         (PrimFloat.div (of_int (Z.of_nat n)) 10%float);
     tmpsensor := fun _ => (40.123%float, 21.456%float);
     motion_sensor := fun _ => false |}.

(** A sensor that takes two seconds to answer: the clock reads 10, 12,
    13, ... *)
Definition slow_sensor : Devices :=
  {| clock := fun n => match n with
                       | O => 10%float
                       | S k => PrimFloat.add 12%float (of_int (Z.of_nat k))
                       end;
     tmpsensor := fun _ => (40.123%float, 21.456%float);
     motion_sensor := fun _ => false |}.

(** A clock that gains four seconds per reading from 1000 s on, so that
    the timer of ten seconds runs out between two turns of the loop. *)
Definition four_second_clock (n : nat) : float :=
  PrimFloat.add 1000%float (PrimFloat.mul 4%float (of_int (Z.of_nat n))).

(** Nobody is in the room. *)
Definition empty_room : Devices :=
  {| clock := four_second_clock;
     tmpsensor := fun _ => (40.123%float, 21.456%float);
     motion_sensor := fun _ => false |}.

(** Somebody walks by once, at the first reading of the motion sensor; the
    clock gains two seconds per reading. *)
Definition one_visit : Devices :=
  {| clock := fun n => PrimFloat.add 1000%float
                         (PrimFloat.mul 2%float (of_int (Z.of_nat n)));
     tmpsensor := fun _ => (40.123%float, 21.456%float);
     motion_sensor := fun n => match n with O => true | S _ => false end |}.

(** The loop variables and the world with the timer run out: the timer was
    started at 900 s. *)
Definition asleep : Locals :=
  {| data_set := Reading 21.46%float 40.12%float;
     last_ambient_temp_req_time := 900%float;
     is_gui_shown := true;
     start_time := 900%float |}.

Definition dark_window : World :=
  {| clock_reads := 0; temp_reads := 1; motion_reads := 0;
     packed := [false; false; false]; calls := [] |}.

(** ** Further definitions: frames, conversions *)


(** On two consecutive raw codes both conversions grow strictly. *)
Definition conversions_step_strict (raw : Z) : bool :=
  match ktoc (of_int raw), ktoc (of_int (raw + 1)),
        ktof (of_int raw), ktof (of_int (raw + 1)) with
  | Done c, Done c', Done f, Done f' =>
      PrimFloat.ltb c c' && PrimFloat.ltb f f'
  | _, _, _, _ => false
  end.

(** [ktoc] on a raw code, written out. *)
Definition celsius (raw : Z) : float :=
  PrimFloat.div (PrimFloat.sub (of_int raw) 27315%float) 100%float.

(** ** Further definitions: the render loop *)

(** How many panels [kill_gui] and [show_gui] reach into: the heat image
    panel, the data panel and, if enabled, the debug panel. *)
Definition needed_panels (cfg : Settings) : nat :=
  if display_debug_panel cfg then 3%nat else 2%nat.

(** The world after [kill_gui] or [show_gui]: the first panels are all set
    to [shown], the call is recorded. *)
Definition after_gui_call (cfg : Settings) (shown : bool) (c : GuiCall)
    (w : World) : World :=
  {| clock_reads := clock_reads w; temp_reads := temp_reads w;
     motion_reads := motion_reads w;
     packed := replicate (needed_panels cfg) shown
                 ++ drop (needed_panels cfg) (packed w);
     calls := calls w ++ [c] |}.



(** ** The camera driver handles: [Uvc], [Device], [Stream] *)

Module Uvc.

(** The exceptions of the start-up code. [Raised] is an exception that
    comes out of the body of the innermost [with]. *)
Inductive error : Type :=
  | UvcInitError
  | DeviceNotFound
  | DeviceNotAvailable
  | StreamError
  | SystemExit (code : Z)
  | ZeroDivisionError
  | OverflowError
  | Raised (e : exn).

(** The calls made on the way, in the order they are made. *)
Inductive call : Type :=
  | uvc_init
  | uvc_exit
  | uvc_find_device
  | uvc_open
  | uvc_unref_device
  | print_device_info
  | print_device_formats
  | uvc_get_frame_formats_by_guid
  | print (line : list Z)
  | uvc_get_stream_ctrl_format_size (width height fps : Z)
  | uvc_start_streaming
  | uvc_stop_streaming
  | body.

(** Modelled from the spec: the frame descriptor of [uvctypes] is not part
    of the sources at hand; these are the three fields the main program
    reads. *)
Record frame_desc : Type := {
  wWidth : Z;
  wHeight : Z;
  dwDefaultFrameInterval : Z
}.

(** What the driver and the device answer: the result codes of the four
    calls the code checks, the Y16 frame formats of the device, and how the
    body of the innermost [with] ends ([None]: it is left normally). *)
Record Driver : Type := {
  init_res : Z;
  find_res : Z;
  open_res : Z;
  frame_formats : list frame_desc;
  start_res : Z;
  body_res : option error
}.

Inductive result (A : Type) : Type :=
  | Ok (a : A)
  | Err (e : error).
Arguments Ok {A} a.
Arguments Err {A} e.

(** A computation of the start-up code: it makes calls and returns or
    raises; the calls made stay made when it raises. *)
Definition L (A : Type) : Type := list call -> result A * list call.

Definition ret {A : Type} (a : A) : L A := fun log => (Ok a, log).

Definition raise {A : Type} (e : error) : L A := fun log => (Err e, log).

Definition bind {A B : Type} (c : L A) (k : A -> L B) : L B :=
  fun log =>
    match c log with
    | (Ok a, log') => k a log'
    | (Err e, log') => (Err e, log')
    end.

Definition do (c : call) : L unit := fun log => (Ok tt, log ++ [c]).

(** [with enter_() as x: body]: if [__enter__] raises, [__exit__] is not
    called; otherwise [__exit__] is called however the body ends, and as it
    returns [None] an exception of the body goes on. *)
Definition with_ {A : Type} (enter_ : L unit) (exit_ : L unit) (body_ : L A)
  : L A :=
  fun log =>
    match enter_ log with
    | (Err e, log1) => (Err e, log1)
    | (Ok _, log1) =>
        let (r, log2) := body_ log1 in
        let (_, log3) := exit_ log2 in
        (r, log3)
    end.

(** [int(x)] on a float: the integer part; infinities and NaN raise. *)
Definition int_of_float (x : float) : option Z :=
  match Prim2SF x with
  | S754_zero _ => Some 0
  | S754_finite s m e =>
      let a := if 0 <=? e then Z.pos m * 2 ^ e else Z.pos m / 2 ^ (- e) in
      Some (if s then - a else a)
  | _ => None
  end.

Section Main.

Variable drv : Driver.

(** [Uvc.__enter__] *)
Definition Uvc_enter : L unit :=
  bind (do uvc_init) (fun _ =>
  if init_res drv <? 0 then raise UvcInitError else ret tt).

(** [Uvc.__exit__] *)
Definition Uvc_exit : L unit := do uvc_exit.

(** [Uvc.find_device] *)
Definition find_device : L unit :=
  bind (do uvc_find_device) (fun _ =>
  if find_res drv <? 0 then raise DeviceNotFound else ret tt).

(** [Uvc.open]: finds the device and makes the [Device] object. *)
Definition open : L unit := find_device.

(** [Device.__enter__] *)
Definition Device_enter : L unit :=
  bind (do uvc_open) (fun _ =>
  if open_res drv <? 0 then raise DeviceNotAvailable else ret tt).

(** [Device.__exit__] *)
Definition Device_exit : L unit := do uvc_unref_device.

(** [Stream.__enter__] *)
Definition Stream_enter : L unit :=
  bind (do uvc_start_streaming) (fun _ =>
  if start_res drv <? 0 then raise StreamError else ret tt).

(** [Stream.__exit__] *)
Definition Stream_exit : L unit := do uvc_stop_streaming.

(** [int(1e7 / frame_formats[0].dwDefaultFrameInterval)] *)
Definition default_fps (f : frame_desc) : L Z :=
  match truediv 10000000%float (of_int (dwDefaultFrameInterval f)) with
  | Done x =>
      match int_of_float x with
      | Some n => ret n
      | None => raise OverflowError
      end
  | _ => raise ZeroDivisionError
  end.

(** The body of the innermost [with]: the sensors, the window and the
    render loop. *)
Definition run_body : L unit :=
  bind (do body) (fun _ =>
  match body_res drv with
  | None => ret tt
  | Some e => raise e
  end).

(** The text of [print("device does not support Y16")], as character
    codes. *)
Definition no_y16 : list Z :=
  [100; 101; 118; 105; 99; 101; 32; 100; 111; 101; 115; 32; 110; 111; 116;
   32; 115; 117; 112; 112; 111; 114; 116; 32; 89; 49; 54].

(** The main program around the body: the three nested [with] blocks of
    the driver handles. *)
Definition main : L unit :=
  with_ Uvc_enter Uvc_exit
    (bind open (fun _ =>
     with_ Device_enter Device_exit
       (bind (do print_device_info) (fun _ =>
        bind (do print_device_formats) (fun _ =>
        bind (do uvc_get_frame_formats_by_guid) (fun _ =>
        match frame_formats drv with
        | [] =>
            bind (do (print no_y16)) (fun _ => raise (SystemExit 1))
        | f0 :: _ =>
            bind (default_fps f0) (fun fps =>
            bind (do (uvc_get_stream_ctrl_format_size
                        (wWidth f0) (wHeight f0) fps)) (fun _ =>
            with_ Stream_enter Stream_exit run_body))
        end)))))).

End Main.

(** The calls that give a handle back. *)
Definition is_release (c : call) : bool :=
  match c with
  | uvc_exit | uvc_unref_device | uvc_stop_streaming => true
  | _ => false
  end.

(** How far the start-up gets. *)
Definition inited (drv : Driver) : bool := 0 <=? init_res drv.
Definition found (drv : Driver) : bool := inited drv && (0 <=? find_res drv).
Definition opened (drv : Driver) : bool := found drv && (0 <=? open_res drv).
(** The frame rate of a format can be worked out. *)
Definition fps_ok (f : frame_desc) : bool :=
  match default_fps f [] with
  | (Ok _, _) => true
  | (Err _, _) => false
  end.

Definition negotiated (drv : Driver) : bool :=
  opened drv &&
  match frame_formats drv with
  | [] => false
  | f0 :: _ => fps_ok f0
  end.
Definition streaming (drv : Driver) : bool :=
  negotiated drv && (0 <=? start_res drv).

(** The releases that are due at the end, innermost handle first. *)
Definition releases (drv : Driver) : list call :=
  (if streaming drv then [uvc_stop_streaming] else []) ++
  (if opened drv then [uvc_unref_device] else []) ++
  (if inited drv then [uvc_exit] else []).

(** A camera with one Y16 format of 160 x 120 at nine frames a second. *)
Definition lepton : frame_desc :=
  {| wWidth := 160; wHeight := 120; dwDefaultFrameInterval := 1111111 |}.

Definition camera_ok : Driver :=
  {| init_res := 0; find_res := 0; open_res := 0;
     frame_formats := [lepton]; start_res := 0; body_res := None |}.

(** The same camera, held by another process. *)
Definition camera_busy : Driver :=
  {| init_res := 0; find_res := 0; open_res := -6;
     frame_formats := [lepton]; start_res := 0; body_res := None |}.

(** A camera without a Y16 format, and one whose format has no frame
    interval. *)
Definition camera_no_y16 : Driver :=
  {| init_res := 0; find_res := 0; open_res := 0;
     frame_formats := []; start_res := 0; body_res := None |}.

Definition camera_no_interval : Driver :=
  {| init_res := 0; find_res := 0; open_res := 0;
     frame_formats := [{| wWidth := 160; wHeight := 120;
                          dwDefaultFrameInterval := 0 |}];
     start_res := 0; body_res := None |}.

(** The render loop is left by an exception that [except Exception] does
    not catch. *)
Definition camera_interrupted : Driver :=
  {| init_res := 0; find_res := 0; open_res := 0;
     frame_formats := [lepton]; start_res := 0;
     body_res := Some (SystemExit 130) |}.

End Uvc.

(** ** The labels of the data panel and of the debug panel *)

Module Labels.

(** The values a data set holds: the random integers of [get_mock_data],
    the rounded sensor readings, the motion flag. *)
Inductive PyVal : Type :=
  | VInt (n : Z)
  | VFloat (x : float)
  | VBool (b : bool).

(** [d[key]] on a dictionary kept as the list of its items, in insertion
    order, with distinct keys: [None] stands for [KeyError]. *)
Fixpoint get {V : Type} (d : list (string * V)) (key : string) : option V :=
  match d with
  | [] => None
  | (k, v) :: rest => if String.eqb k key then Some v else get rest key
  end.

(** [d[key] = v] on a key the dictionary has. *)
Fixpoint set {V : Type} (d : list (string * V)) (key : string) (v : V)
  : list (string * V) :=
  match d with
  | [] => []
  | (k, old) :: rest =>
      if String.eqb k key then (k, v) :: rest else (k, old) :: set rest key v
  end.

Definition keys {V : Type} (d : list (string * V)) : list string := map fst d.

(** Why a name or an item cannot be read. *)
Inductive lookup_error : Type :=
  | NameError
  | KeyError (key : string).

Section WithStr.

(** [str(val)], and the text ["Timer: {0} ({1})".format(str(time_str),
    settings["sleep_timeout_sec"])]. *)
Variable str : PyVal -> string.
Variable timer_str : float -> Settings -> string.

(** ['{0}: {1}'.format(attr, str(val))] *)
Definition label_text (attr : string) (val : PyVal) : string :=
  String.append attr (String.append ": " (str val)).

(** [def generate_data_labels(parent, data_set)]: the dictionary
    [string_pointers], one text variable per item of the data set. *)
Definition generate_data_labels (data_set : list (string * PyVal))
  : list (string * string) :=
  map (fun item => (fst item, label_text (fst item) (snd item))) data_set.

(** [def update_string_pointers(string_pointers, data_set)]: every text
    variable, in the order of the dictionary, is set from [data_set[attr]];
    the first key the data set does not have raises [KeyError]. *)
Fixpoint update_string_pointers
    (string_pointers : list (string * string))
    (data_set : list (string * PyVal))
  : lookup_error + list (string * string) :=
  match string_pointers with
  | [] => inr []
  | (attr, pointer) :: rest =>
      match get data_set attr with
      | None => inl (KeyError attr)
      | Some val =>
          match update_string_pointers rest data_set with
          | inr rest' => inr ((attr, label_text attr val) :: rest')
          | inl e => inl e
          end
      end
  end.

(** [def generate_debug_labels(parent)]; [ip] is what [get_ip_address()]
    returns. *)
Definition generate_debug_labels (cfg : Settings) (ip : string)
  : list (string * string) :=
  (if display_sleep_timer cfg
   then [("display_sleep_timer", "Timer: 0")] else []) ++
  (if display_host_ip cfg
   then [("display_host_ip", String.append "Mirror network address: " ip)]
   else []).

(** [debug_string_pointers] in the main program: assigned only under
    [if settings["display_debug_panel"]]. *)
Definition debug_string_pointers (cfg : Settings) (ip : string)
  : option (list (string * string)) :=
  if display_debug_panel cfg then Some (generate_debug_labels cfg ip)
  else None.

(** The update of the sleep timer label in the ACTIVE branch of the loop. *)
Definition set_sleep_timer (cfg : Settings)
    (pointers : option (list (string * string))) (time_passed : float)
  : lookup_error + option (list (string * string)) :=
  if display_debug_panel cfg && display_sleep_timer cfg
  then
    let time_str := round time_passed 1 in
    match pointers with
    | None => inl NameError
    | Some d =>
        match get d "display_sleep_timer" with
        | None => inl (KeyError "display_sleep_timer")
        | Some _ =>
            inr (Some (set d "display_sleep_timer" (timer_str time_str cfg)))
        end
    end
  else inr pointers.

End WithStr.

(** The dictionary [{"temp": temp, "hum": hum}] of
    [get_ambient_temp_data]; the placeholder [0] is no dictionary. *)
Definition dict_of (ds : DataSet) : option (list (string * PyVal)) :=
  match ds with
  | Reading temp hum => Some [("temp", VFloat temp); ("hum", VFloat hum)]
  | NoData _ => None
  end.

(** [def get_mock_data()] of [screen/test.py]; [t] and [h] are what the two
    calls of [random.randint(1, 101)] return. *)
Definition get_mock_data (t h : Z) : list (string * PyVal) :=
  [("temp", VInt t); ("hum", VInt h)].

(** [def get_data(tmpsensor, motionsensor)] of [screen/test.py], on what
    the two sensors answer. *)
Definition get_data (sensed : float * float) (motion : bool)
  : list (string * PyVal) :=
  let hum := round (fst sensed) 2 in
  let temp := round (snd sensed) 2 in
  [("temp", VFloat temp); ("hum", VFloat hum); ("motion", VBool motion)].

(** A [str] for running the labels: integers in decimal, floats shown by
    their rounded hundredths. *)
Definition show (v : PyVal) : string :=
  match v with
  | VInt n => pretty n
  | VFloat x =>
      match Uvc.int_of_float (PrimFloat.mul x 100%float) with
      | Some n => String.append (pretty n) "e-2"
      | None => "nan"
      end
  | VBool true => "True"
  | VBool false => "False"
  end.

Definition show_timer (t : float) (cfg : Settings) : string :=
  String.append "Timer: " (show (VFloat t)).

End Labels.

(** * Part II: properties *)

(** ** Float comparison *)

Lemma SFleb_trans (a b c : spec_float) :
  SFleb a b = true -> SFleb b c = true -> SFleb a c = true.
Proof.
  unfold SFleb, SFcompare.
  destruct a as [sa|sa| |sa ma ea], b as [sb|sb| |sb mb eb],
           c as [sc|sc| |sc mc ec];
    repeat match goal with s : bool |- _ => destruct s end;
    try (intros; reflexivity); try (intros; discriminate);
    change (Pos.compare_cont Eq) with Pos.compare;
    destruct (Z.compare_spec ea eb), (Z.compare_spec eb ec),
             (Z.compare_spec ea ec);
    try lia; try (intros; reflexivity); try (intros; discriminate);
    destruct (Pos.compare_spec ma mb), (Pos.compare_spec mb mc),
             (Pos.compare_spec ma mc);
    simpl; try lia; try (intros; reflexivity); try (intros; discriminate).
Qed.

Lemma leb_trans (x y z : float) :
  PrimFloat.leb x y = true -> PrimFloat.leb y z = true ->
  PrimFloat.leb x z = true.
Proof. rewrite !leb_spec. apply SFleb_trans. Qed.

Lemma leb_refl_finite (x : float) :
  PrimFloat.is_finite x = true -> PrimFloat.leb x x = true.
Proof.
  unfold PrimFloat.is_finite, PrimFloat.is_nan.
  rewrite leb_spec, FloatAxioms.eqb_spec. unfold SFleb, SFeqb.
  destruct (SFcompare (Prim2SF x) (Prim2SF x)) as [[]|]; simpl; congruence.
Qed.

Lemma forall_range_spec (f : Z -> bool) (n : nat) (lo i : Z) :
  forall_range f lo n = true -> lo <= i < lo + Z.of_nat n -> f i = true.
Proof.
  revert lo. induction n as [|n IH]; intros lo H Hi; [lia|].
  simpl in H. apply andb_true_iff in H as [H0 H1].
  destruct (Z.eq_dec i lo) as [->|Hne]; [exact H0|].
  apply (IH (lo + 1)); [exact H1|lia].
Qed.

(** ** Temperature conversions *)

Lemma ktoc_total (val : float) :
  ktoc val = Done (PrimFloat.div (PrimFloat.sub val 27315%float) 100%float).
Proof. reflexivity. Qed.

Lemma ktof_total (val : float) :
  ktof val =
  Done (PrimFloat.add
          (PrimFloat.mul 1.8%float
             (PrimFloat.div (PrimFloat.sub val 27315%float) 100%float))
          32%float).
Proof. reflexivity. Qed.

Lemma ktof_steps_checked : forall_range ktof_step_ok 0 (Z.to_nat 65535) = true.
Proof. vm_compute. reflexivity. Qed.

Lemma fahrenheit_step (raw : Z) :
  0 <= raw < 65535 ->
  PrimFloat.leb (fahrenheit raw) (fahrenheit (raw + 1)) = true /\
  PrimFloat.is_finite (fahrenheit raw) = true /\
  PrimFloat.is_finite (fahrenheit (raw + 1)) = true.
Proof.
  intros H.
  assert (Hs : ktof_step_ok raw = true).
  { apply (forall_range_spec _ (Z.to_nat 65535) 0);
      [apply ktof_steps_checked|lia]. }
  unfold ktof_step_ok in Hs. rewrite !ktof_total in Hs.
  apply andb_true_iff in Hs as [Hs Hb]. apply andb_true_iff in Hs as [Hs Ha].
  auto.
Qed.

Lemma fahrenheit_finite (raw : Z) :
  0 <= raw <= 65535 -> PrimFloat.is_finite (fahrenheit raw) = true.
Proof.
  intros H. destruct (Z.eq_dec raw 65535) as [->|Hne].
  - apply (fahrenheit_step 65534). lia.
  - apply (fahrenheit_step raw). lia.
Qed.

Lemma fahrenheit_mono_nat (n : nat) (raw : Z) :
  0 <= raw -> raw + Z.of_nat n <= 65535 ->
  PrimFloat.leb (fahrenheit raw) (fahrenheit (raw + Z.of_nat n)) = true.
Proof.
  induction n as [|n IH]; intros H0 H1.
  - replace (raw + Z.of_nat 0) with raw by lia.
    apply leb_refl_finite, fahrenheit_finite. lia.
  - apply leb_trans with (fahrenheit (raw + Z.of_nat n)).
    + apply IH; lia.
    + replace (raw + Z.of_nat (S n)) with (raw + Z.of_nat n + 1) by lia.
      apply fahrenheit_step. lia.
Qed.

(** C6. For every raw code of the 16-bit range both conversions return (no
    exception), [ktoc] returns [(raw - 27315) / 100.0], [ktof] returns
    [1.8 * ((raw - 27315) / 100.0) + 32.0], the result is a finite float,
    and [ktof] never decreases when the raw code grows. *)
Theorem ktof_formula_total_monotone (raw raw' : Z) :
  0 <= raw -> raw <= raw' -> raw' <= 65535 ->
  ktoc (of_int raw) =
    Done (PrimFloat.div (PrimFloat.sub (of_int raw) 27315%float) 100%float) /\
  ktof (of_int raw) = Done (fahrenheit raw) /\
  ktof (of_int raw') = Done (fahrenheit raw') /\
  PrimFloat.is_finite (fahrenheit raw) = true /\
  PrimFloat.leb (fahrenheit raw) (fahrenheit raw') = true.
Proof.
  intros H0 H1 H2. repeat split.
  - apply fahrenheit_finite. lia.
  - replace raw' with (raw + Z.of_nat (Z.to_nat (raw' - raw))) by lia.
    apply fahrenheit_mono_nat; lia.
Qed.

Lemma ktof_formula_total_monotone_witness :
  ktof (of_int 27315) = Done 32%float /\
  ktof (of_int 30000) = Done (fahrenheit 30000) /\
  PrimFloat.leb (fahrenheit 27315) (fahrenheit 30000) = true.
Proof.
  destruct (ktof_formula_total_monotone 27315 30000) as (_ & Ha & Hb & _ & Hc);
    [lia | lia | lia |].
  split; [exact Ha | split; [exact Hb | exact Hc]].
Defined.

(** ** The frame source and the bounded buffer *)


Lemma callback_full (f : uvc_frame) (q : Queue.t Np.ndarray) :
  Queue.full q = true -> py_frame_callback f q = Done q.
Proof.
  intros H. unfold py_frame_callback. rewrite H. simpl.
  destruct (negb _); reflexivity.
Qed.

Lemma callback_enqueues (f : uvc_frame) (q : Queue.t Np.ndarray) :
  well_formed f -> Queue.full q = false ->
  py_frame_callback f q =
  Done (Queue.mk (Queue.maxsize q) (Queue.items q ++ [frame_array f])).
Proof.
  unfold well_formed, py_frame_callback, Queue.put. intros -> ->.
  rewrite Z.eqb_refl. reflexivity.
Qed.

(** The callback always returns: it neither raises nor waits, and what it
    leaves in the queue is the old content, with at most the new array at
    the end. *)
Lemma callback_returns (f : uvc_frame) (q : Queue.t Np.ndarray) :
  py_frame_callback f q = Done q \/
  (Queue.full q = false /\
   py_frame_callback f q =
   Done (Queue.mk (Queue.maxsize q) (Queue.items q ++ [frame_array f]))).
Proof.
  unfold py_frame_callback, Queue.put.
  destruct (negb (data_bytes f =? _)); [left; reflexivity|].
  destruct (Queue.full q) eqn:E; simpl; [left|right]; auto.
Qed.

Lemma full_iff {A : Type} (q : Queue.t A) :
  Queue.maxsize q = BUF_SIZE ->
  Queue.full q = true <-> (10 <= length (Queue.items q))%nat.
Proof.
  intros Hm. unfold Queue.full, Queue.qsize. rewrite Hm. unfold BUF_SIZE.
  simpl. rewrite Z.leb_le. lia.
Qed.

Lemma deliver_spec (frames : list uvc_frame) :
  Forall well_formed frames ->
  forall its : list Np.ndarray,
    deliver frames (Queue.mk BUF_SIZE its) =
    Done (Queue.mk BUF_SIZE
            (its ++ take (10 - length its) (map frame_array frames))).
Proof.
  induction 1 as [|f frames Hf _ IH]; intros its; simpl.
  - rewrite take_nil, app_nil_r. reflexivity.
  - destruct (Queue.full (Queue.mk BUF_SIZE its)) eqn:E.
    + rewrite callback_full by exact E.
      apply full_iff in E; [|reflexivity]. simpl in E.
      rewrite IH. replace (10 - length its)%nat with 0%nat by lia.
      reflexivity.
    + rewrite callback_enqueues by assumption. simpl.
      assert (length its < 10)%nat as Hlt.
      { destruct (le_lt_dec 10 (length its)) as [Hle|]; [|assumption].
        apply (full_iff (Queue.mk BUF_SIZE its)) in Hle; [|reflexivity].
        congruence. }
      rewrite IH, length_app. simpl.
      replace (10 - length its)%nat with (S (10 - (length its + 1)))%nat by lia.
      simpl. rewrite <- app_assoc. reflexivity.
Qed.

(** C2. Ten and more well-formed frames are delivered to the empty buffer,
    with nothing taken out in between. From the tenth on, the buffer holds
    the arrays of the first ten frames in their order; every further frame,
    whatever it is, leaves the buffer as it is and the callback returns
    (it neither waits nor raises); taking from the buffer then gives the
    array of the first frame and leaves the nine after it. *)
Theorem buffer_keeps_first_capacity (frames : list uvc_frame) (k : nat) :
  Forall well_formed frames ->
  length frames = (Z.to_nat BUF_SIZE + k)%nat ->
  let kept := map frame_array (take 10 frames) in
  (forall n, (10 <= n <= length frames)%nat ->
             deliver (take n frames) q0 = Done (Queue.mk BUF_SIZE kept)) /\
  length kept = 10%nat /\
  (forall f, py_frame_callback f (Queue.mk BUF_SIZE kept)
             = Done (Queue.mk BUF_SIZE kept)) /\
  (exists f0 rest,
      frames = f0 :: rest /\
      Queue.get (Queue.mk BUF_SIZE kept)
      = Done (frame_array f0,
              Queue.mk BUF_SIZE (map frame_array (take 9 rest)))).
Proof.
  intros Hwf Hlen kept. change (Z.to_nat BUF_SIZE) with 10%nat in Hlen.
  assert (Hk : length kept = 10%nat).
  { unfold kept. rewrite length_map, length_take. lia. }
  repeat split.
  - intros n Hn. unfold q0, Queue.new.
    rewrite deliver_spec by (apply Forall_take; exact Hwf).
    simpl. unfold kept. rewrite <- fmap_take, take_take.
    replace (10 `min` n)%nat with 10%nat by lia. reflexivity.
  - exact Hk.
  - intros f. apply callback_full. apply full_iff; [reflexivity|].
    simpl. lia.
  - destruct frames as [|f0 rest]; [simpl in Hlen; lia|].
    exists f0, rest. split; [reflexivity|]. reflexivity.
Qed.


(** ** The buffer over a run of the program *)

Lemma step_queue (cfg : Settings) (dev : Devices) (e : Event) (p p' : Program) :
  step cfg dev e p = Done p' ->
  Queue.maxsize (q p') = Queue.maxsize (q p) /\
  (q p' = q p \/
   (Queue.full (q p) = false /\
    exists a, Queue.items (q p') = Queue.items (q p) ++ [a])).
Proof.
  destruct e as [f|]; simpl.
  - destruct (callback_returns f (q p)) as [E|[Hnf E]]; rewrite E;
      intros [= <-]; simpl.
    + destruct p; simpl; auto.
    + split; [reflexivity|]. right. split; [exact Hnf|]. eauto.
  - destruct (loop_body cfg dev (locals p) (world p)) as [[l' w']| |];
      [|discriminate..].
    intros [= <-]. simpl. auto.
Qed.

Lemma run_queue (cfg : Settings) (dev : Devices) (es : list Event) :
  forall p p' : Program,
    run cfg dev es p = Done p' ->
    Queue.maxsize (q p') = Queue.maxsize (q p) /\
    (exists added, Queue.items (q p') = Queue.items (q p) ++ added) /\
    (Queue.full (q p) = true -> q p' = q p).
Proof.
  induction es as [|e es IH]; intros p p'; simpl.
  - intros [= <-]. split; [reflexivity|]. split; [|reflexivity].
    exists []. rewrite app_nil_r. reflexivity.
  - destruct (step cfg dev e p) as [p1| |] eqn:E; [|discriminate..].
    intros Hrun. apply IH in Hrun as (Hm & [added Ha] & Hfull).
    apply step_queue in E as (Hm1 & Hq).
    split; [congruence|]. split.
    + destruct Hq as [E1|[_ [a Hq]]];
        [exists added; rewrite Ha, E1; reflexivity|].
      exists (a :: added). rewrite Ha, Hq, <- app_assoc. reflexivity.
    + intros Hf. destruct Hq as [E1|[Hnf _]]; [|congruence].
      rewrite <- E1. apply Hfull. rewrite E1. exact Hf.
Qed.

(** C8. Over any run of frame deliveries and loop turns: a loop turn leaves
    the buffer as it is; the items the buffer held stay at its front, in
    order, so that its size never goes down; and once the buffer is full
    (ten items in the buffer of [BUF_SIZE]) it is the same buffer after
    every later event: each frame delivered from then on is dropped. *)
Theorem buffer_never_drained
    (cfg : Settings) (dev : Devices) (es : list Event) (p p' : Program) :
  run cfg dev es p = Done p' ->
  (forall p1 p2, step cfg dev LoopTurn p1 = Done p2 -> q p2 = q p1) /\
  (exists added, Queue.items (q p') = Queue.items (q p) ++ added) /\
  Queue.qsize (q p) <= Queue.qsize (q p') /\
  (Queue.maxsize (q p) = BUF_SIZE -> Queue.qsize (q p) = 10 ->
   Queue.full (q p) = true) /\
  (Queue.full (q p) = true ->
   q p' = q p /\
   forall f, py_frame_callback f (q p') = Done (q p')).
Proof.
  intros Hrun. apply run_queue in Hrun as (Hm & [added Ha] & Hfull).
  split; [|split; [|split; [|split]]].
  - intros p1 p2. simpl.
    destruct (loop_body cfg dev (locals p1) (world p1)) as [[l' w']| |];
      [|discriminate..].
    intros [= <-]. reflexivity.
  - eauto.
  - unfold Queue.qsize. rewrite Ha, length_app. lia.
  - intros Hmax Hsize. apply full_iff; [exact Hmax|].
    unfold Queue.qsize in Hsize. lia.
  - intros Hf. split; [auto|]. intros f. apply callback_full.
    rewrite Hfull; auto.
Qed.

(** C10 as the code has it. A well-formed frame delivered to a buffer that
    is not full is enqueued as a view of the driver's payload: the array
    put at the end of the buffer has the payload pointer of the frame as
    its memory, no cell is copied, and whatever the driver writes there
    afterwards is what the queued array shows. *)
Theorem enqueued_sample_is_view_of_payload
    (f : uvc_frame) (qu : Queue.t Np.ndarray) :
  well_formed f -> Queue.full qu = false ->
  exists a,
    py_frame_callback f qu
    = Done (Queue.mk (Queue.maxsize qu) (Queue.items qu ++ [a])) /\
    Np.base a = data f /\
    Np.shape a = [height f; width f] /\
    forall (m : store) (payload : list Z),
      Np.cells (driver_write (data f) payload m) a = Some payload.
Proof.
  intros Hwf Hnf. exists (frame_array f).
  split; [apply callback_enqueues; assumption|].
  split; [reflexivity|]. split; [reflexivity|].
  intros m payload. unfold Np.cells, driver_write. simpl.
  apply lookup_insert_eq.
Qed.

(** ** The thermal processor *)






(** ** The frame source on concrete frames *)

Lemma twelve_frames_well_formed : Forall well_formed twelve_frames.
Proof. repeat constructor. Qed.

Lemma buffer_keeps_first_capacity_witness :
  deliver twelve_frames q0
  = Done (Queue.mk BUF_SIZE (map frame_array (take 10 twelve_frames))) /\
  Queue.get (Queue.mk BUF_SIZE (map frame_array (take 10 twelve_frames)))
  = Done (frame_array (frame_at 1),
          Queue.mk BUF_SIZE
            (map frame_array (take 9 (map frame_at
               [2; 3; 4; 5; 6; 7; 8; 9; 10; 11; 12]%positive)))).
Proof.
  destruct (buffer_keeps_first_capacity twelve_frames 2
              twelve_frames_well_formed eq_refl)
    as (Hd & _ & _ & (f0 & rest & Hfr & Hget)).
  split.
  - apply (Hd 12%nat). simpl. lia.
  - injection Hfr as <- <-. exact Hget.
Defined.


Lemma enqueued_sample_is_view_of_payload_witness :
  exists a,
    py_frame_callback frame1 q0
    = Done (Queue.mk (Queue.maxsize q0) (Queue.items q0 ++ [a])) /\
    Np.base a = data frame1 /\
    Np.shape a = [height frame1; width frame1] /\
    forall (m : store) (payload : list Z),
      Np.cells (driver_write (data frame1) payload m) a = Some payload.
Proof.
  apply (enqueued_sample_is_view_of_payload frame1 q0); reflexivity.
Defined.

(** C10 as stated fails: the frame [frame1] whose payload is [1, 2, 3, 4]
    is enqueued; the queued array has the payload pointer as its memory,
    and once the driver has written the next payload [9, 9, 9, 9] to that
    buffer the queued array shows the new cells, not those of its frame. *)
Lemma enqueued_sample_aliases_driver_buffer :
  let m : store := {[ data frame1 := [1; 2; 3; 4] ]} in
  exists a,
    py_frame_callback frame1 q0 = Done (Queue.mk BUF_SIZE [a]) /\
    Np.base a = data frame1 /\
    Np.cells m a = Some [1; 2; 3; 4] /\
    Np.cells (driver_write (data frame1) [9; 9; 9; 9] m) a = Some [9; 9; 9; 9].
Proof.
  exists (frame_array frame1). repeat split.
Qed.

Lemma buffer_never_drained_witness :
  exists p',
    run settings quiet_room
      (map FrameDelivered twelve_frames ++ [LoopTurn; FrameDelivered frame1])
      program1 = Done p' /\
    Queue.qsize (q program1) <= Queue.qsize (q p') /\
    Queue.items (q p') = map frame_array (take 10 twelve_frames).
Proof.
  eexists. split; [vm_compute; reflexivity|].
  split.
  - eapply (buffer_never_drained settings quiet_room
              (map FrameDelivered twelve_frames ++ [LoopTurn; FrameDelivered frame1])
              program1).
    vm_compute. reflexivity.
  - reflexivity.
Defined.

(** ** More on float comparison *)

Lemma SFleb_not_ltb (a b : spec_float) :
  SFleb a b = true -> SFltb b a = false.
Proof.
  unfold SFleb, SFltb, SFcompare.
  destruct a as [sa|sa| |sa ma ea], b as [sb|sb| |sb mb eb];
    repeat match goal with s : bool |- _ => destruct s end;
    try (intros; reflexivity); try (intros; discriminate);
    change (Pos.compare_cont Eq) with Pos.compare;
    destruct (Z.compare_spec ea eb), (Z.compare_spec eb ea);
    try lia; try (intros; reflexivity); try (intros; discriminate);
    destruct (Pos.compare_spec ma mb), (Pos.compare_spec mb ma);
    simpl; try lia; try (intros; reflexivity); try (intros; discriminate).
Qed.

Lemma leb_not_ltb (x y : float) :
  PrimFloat.leb x y = true -> PrimFloat.ltb y x = false.
Proof. rewrite leb_spec, ltb_spec. apply SFleb_not_ltb. Qed.

(** ** The ambient sensor poller *)

Lemma poll_cached (cfg : Settings) (dev : Devices)
    (last : float) (ds : DataSet) (w : World) :
  PrimFloat.ltb (ambient_temp_delay_sec cfg)
    (PrimFloat.sub (clock dev (clock_reads w)) last) = false ->
  get_ambient_temp_data cfg dev last ds w =
  Done ((ds, last),
        {| clock_reads := S (clock_reads w); temp_reads := temp_reads w;
           motion_reads := motion_reads w; packed := packed w;
           calls := calls w |}).
Proof.
  intros H. unfold get_ambient_temp_data, bind, time_time. simpl.
  rewrite H. reflexivity.
Qed.

Lemma poll_fresh (cfg : Settings) (dev : Devices)
    (last : float) (ds : DataSet) (w : World) :
  PrimFloat.ltb (ambient_temp_delay_sec cfg)
    (PrimFloat.sub (clock dev (clock_reads w)) last) = true ->
  get_ambient_temp_data cfg dev last ds w =
  Done ((Reading (round (snd (tmpsensor dev (temp_reads w))) 2)
                 (round (fst (tmpsensor dev (temp_reads w))) 2),
         clock dev (S (clock_reads w))),
        {| clock_reads := S (S (clock_reads w));
           temp_reads := S (temp_reads w);
           motion_reads := motion_reads w; packed := packed w;
           calls := calls w |}).
Proof.
  intros H. unfold get_ambient_temp_data, bind, time_time. simpl.
  rewrite H. reflexivity.
Qed.

(** C3 as the code has it. [now] is the clock value the poller reads
    first. If [now - last_req_time <= ambient_temp_delay_sec], the poller
    returns the data set and the time it was given and the sensor is not
    read. If [now - last_req_time > ambient_temp_delay_sec], the sensor is
    read once, the data set returned holds its temperature and humidity
    rounded to two digits, and the time returned is the value of a second
    clock reading, made after the sensor was read. A poll that reads the
    sensor followed by a poll within the delay of the time the first one
    returned reads the sensor once in all, and both return the same data
    set. *)
Theorem poll_cached_or_fresh (cfg : Settings) (dev : Devices)
    (last : float) (ds : DataSet) (w : World) :
  let now := clock dev (clock_reads w) in
  let delay := ambient_temp_delay_sec cfg in
  (PrimFloat.leb (PrimFloat.sub now last) delay = true ->
   exists w',
     get_ambient_temp_data cfg dev last ds w = Done ((ds, last), w') /\
     temp_reads w' = temp_reads w) /\
  (PrimFloat.ltb delay (PrimFloat.sub now last) = true ->
   exists w',
     get_ambient_temp_data cfg dev last ds w =
     Done ((Reading (round (snd (tmpsensor dev (temp_reads w))) 2)
                    (round (fst (tmpsensor dev (temp_reads w))) 2),
            clock dev (S (clock_reads w))), w') /\
     temp_reads w' = S (temp_reads w) /\
     clock_reads w' = S (S (clock_reads w)) /\
     (PrimFloat.leb
        (PrimFloat.sub (clock dev (clock_reads w'))
           (clock dev (S (clock_reads w)))) delay = true ->
      exists r t w'',
        get_ambient_temp_data cfg dev last ds w = Done ((r, t), w') /\
        get_ambient_temp_data cfg dev t r w' = Done ((r, t), w'') /\
        temp_reads w'' = S (temp_reads w))).
Proof.
  intros now delay. split.
  - intros H. apply leb_not_ltb in H.
    eexists. split; [apply poll_cached; exact H|reflexivity].
  - intros H. eexists. split; [apply poll_fresh; exact H|].
    split; [reflexivity|]. split; [reflexivity|].
    simpl. intros H2. apply leb_not_ltb in H2.
    eexists _, _, _. split; [apply poll_fresh; exact H|].
    split; [apply poll_cached; exact H2|reflexivity].
Qed.

Lemma poll_cached_or_fresh_witness :
  (exists w',
      get_ambient_temp_data settings slow_sensor 8%float
        (Reading 21.5%float 40%float) world0
      = Done ((Reading 21.5%float 40%float, 8%float), w') /\
      temp_reads w' = temp_reads world0) /\
  (exists w',
      get_ambient_temp_data settings slow_sensor 0%float (NoData 0) world0
      = Done ((Reading 21.46%float 40.12%float, 12%float), w') /\
      temp_reads w' = 1%nat).
Proof.
  split.
  - apply (poll_cached_or_fresh settings slow_sensor 8%float
             (Reading 21.5%float 40%float) world0).
    vm_compute. reflexivity.
  - destruct (proj2 (poll_cached_or_fresh settings slow_sensor 0%float
                       (NoData 0) world0)) as (w' & Hrun & Ht & _).
    { vm_compute. reflexivity. }
    exists w'. split; [exact Hrun|exact Ht].
Defined.

(** C3 as stated fails: the time a fresh poll returns is not the clock
    value [now] that was compared with the delay. With the clock at 10 s
    when the poller is entered and at 12 s when the sensor has answered,
    the poller returns 12 s. *)
Lemma poll_time_is_not_now :
  let now := clock slow_sensor (clock_reads world0) in
  PrimFloat.ltb (ambient_temp_delay_sec settings)
    (PrimFloat.sub now 0%float) = true /\
  exists r t w',
    get_ambient_temp_data settings slow_sensor 0%float (NoData 0) world0
    = Done ((r, t), w') /\
    t = 12%float /\ t <> now.
Proof.
  split; [reflexivity|].
  eexists _, _, _. split; [vm_compute; reflexivity|].
  split; [reflexivity|].
  intros E. apply (f_equal (PrimFloat.eqb 10%float)) in E.
  vm_compute in E. discriminate.
Qed.

(** ** The render loop *)

Ltac unfold_loop :=
  unfold loop_body, active_branch, passive_branch, get_ambient_temp_data,
    update_string_pointers, kill_gui, show_gui, bind, ret, raise, time_time,
    tmpsensor_sense, movement, gui, set_packed in *.

(** The panel list has two or three entries. *)
Ltac panels w H :=
  let ps := fresh "ps" in
  destruct w as [? ? ? ps ?]; unfold panels_built in H; simpl in H;
  destruct ps as [|? [|? [|? [|? ?]]]];
  repeat match goal with
         | |- context [display_debug_panel ?c] =>
             destruct (display_debug_panel c)
         | H' : context [display_debug_panel ?c] |- _ =>
             destruct (display_debug_panel c)
         end;
  simpl in H; try discriminate H.

Lemma kill_gui_spec (cfg : Settings) (w : World) :
  panels_built cfg w ->
  kill_gui cfg w =
  Done (tt, {| clock_reads := clock_reads w; temp_reads := temp_reads w;
               motion_reads := motion_reads w;
               packed := map (fun _ => false) (packed w);
               calls := calls w ++ [KillGui] |}).
Proof. intros H. unfold kill_gui, show_gui. panels w H; reflexivity. Qed.

Lemma show_gui_spec (cfg : Settings) (w : World) :
  panels_built cfg w ->
  show_gui cfg w =
  Done (tt, {| clock_reads := clock_reads w; temp_reads := temp_reads w;
               motion_reads := motion_reads w;
               packed := map (fun _ => true) (packed w);
               calls := calls w ++ [ShowGui] |}).
Proof. intros H. unfold kill_gui, show_gui. panels w H; reflexivity. Qed.

(** A turn in which the timer has run out, worked out. *)
Lemma passive_turn (cfg : Settings) (dev : Devices) (l : Locals) (w : World) :
  panels_built cfg w ->
  display_state cfg (clock dev (clock_reads w)) l = PASSIVE ->
  let motion := motion_sensor dev (motion_reads w) in
  loop_body cfg dev l w =
  Done ({| data_set := data_set l;
           last_ambient_temp_req_time := last_ambient_temp_req_time l;
           is_gui_shown := is_gui_shown l;
           start_time := if motion then clock dev (S (clock_reads w))
                         else start_time l |},
        {| clock_reads := if motion then S (S (clock_reads w))
                          else S (clock_reads w);
           temp_reads := temp_reads w;
           motion_reads := S (motion_reads w);
           packed := if motion then map (fun _ => true) (packed w)
                     else if is_gui_shown l
                          then map (fun _ => false) (packed w)
                          else packed w;
           calls := calls w ++ (if is_gui_shown l then [KillGui] else [])
                            ++ (if motion then [ShowGui] else [])
                            ++ turn_end cfg |}).
Proof.
  intros Hp Hs motion. subst motion. unfold display_state in Hs.
  destruct (PrimFloat.ltb _ _) eqn:Hlt in Hs; [discriminate|].
  unfold turn_end. unfold_loop. simpl. rewrite Hlt.
  destruct l as [ds lrt shown st]; simpl in *.
  panels w Hp; simpl;
    destruct shown; simpl;
    destruct (motion_sensor dev _); simpl;
    rewrite <- ?app_assoc; reflexivity.
Qed.

(** A turn in which the timer has not run out, worked out. *)
Lemma active_turn (cfg : Settings) (dev : Devices) (l : Locals) (w : World) :
  has_reading l ->
  display_state cfg (clock dev (clock_reads w)) l = ACTIVE ->
  let n := clock_reads w in
  let time_passed := PrimFloat.sub (clock dev n) (start_time l) in
  let poll := PrimFloat.ltb (ambient_temp_delay_sec cfg)
                (PrimFloat.sub (clock dev (S n)) (last_ambient_temp_req_time l)) in
  let ht := tmpsensor dev (temp_reads w) in
  let ds' := if poll then Reading (round (snd ht) 2) (round (fst ht) 2)
             else data_set l in
  let n1 := if poll then S (S (S n)) else S (S n) in
  let motion := motion_sensor dev (motion_reads w) in
  loop_body cfg dev l w =
  Done ({| data_set := ds';
           last_ambient_temp_req_time :=
             if poll then clock dev (S (S n)) else last_ambient_temp_req_time l;
           is_gui_shown := is_gui_shown l;
           start_time := if motion then clock dev n1 else start_time l |},
        {| clock_reads := if motion then S n1 else n1;
           temp_reads := if poll then S (temp_reads w) else temp_reads w;
           motion_reads := S (motion_reads w);
           packed := packed w;
           calls := calls w ++ label_calls ds'
                      ++ (if display_debug_panel cfg && display_sleep_timer cfg
                          then [SetSleepTimer (round time_passed 1)] else [])
                      ++ turn_end cfg |}).
Proof.
  intros (temp & hum & Hds) Hs n time_passed poll ht ds' n1 motion.
  subst n time_passed poll ht ds' n1 motion. unfold display_state in Hs.
  destruct (PrimFloat.ltb _ _) eqn:Hlt in Hs; [|discriminate].
  unfold turn_end. unfold_loop. simpl. rewrite Hlt.
  destruct l as [ds lrt shown st]; simpl in *. subst ds.
  destruct w as [cr tr mr ps cs]; simpl.
  destruct (PrimFloat.ltb (ambient_temp_delay_sec cfg) _); simpl;
    destruct (display_debug_panel cfg), (display_sleep_timer cfg); simpl;
    destruct (motion_sensor dev mr); simpl;
    rewrite <- ?app_assoc; reflexivity.
Qed.

Lemma display_state_cases (cfg : Settings) (now : float) (l : Locals) :
  display_state cfg now l = ACTIVE \/ display_state cfg now l = PASSIVE.
Proof. destruct (display_state cfg now l); auto. Qed.

(** Once the panels are built and the first poll is made, a turn of the
    loop always comes to its end, and leaves things so that the next one
    does too. *)
Lemma loop_body_returns (cfg : Settings) (dev : Devices) (l : Locals) (w : World) :
  panels_built cfg w -> has_reading l ->
  exists l' w',
    loop_body cfg dev l w = Done (l', w') /\
    panels_built cfg w' /\ has_reading l' /\
    is_gui_shown l' = is_gui_shown l /\
    motion_reads w' = S (motion_reads w) /\
    (motion_sensor dev (motion_reads w) = false -> start_time l' = start_time l).
Proof.
  intros Hp Hr.
  destruct (display_state_cases cfg (clock dev (clock_reads w)) l) as [Hs|Hs].
  - rewrite (active_turn cfg dev l w Hr Hs). eexists _, _.
    split; [reflexivity|]. simpl. split; [exact Hp|]. split.
    + destruct (PrimFloat.ltb _ _); [eexists _, _; reflexivity|exact Hr].
    + split; [reflexivity|]. split; [reflexivity|]. intros ->. reflexivity.
  - rewrite (passive_turn cfg dev l w Hp Hs). eexists _, _.
    split; [reflexivity|]. simpl. split.
    + unfold panels_built in *. simpl.
      destruct (motion_sensor dev _), (is_gui_shown l);
        rewrite ?length_map; exact Hp.
    + split; [exact Hr|]. split; [reflexivity|]. split; [reflexivity|].
      intros ->. reflexivity.
Qed.

Lemma loop_returns (cfg : Settings) (dev : Devices) (n : nat) :
  forall (l : Locals) (w : World),
    panels_built cfg w -> has_reading l ->
    exists l' w',
      loop cfg dev n l w = Done (l', w') /\
      panels_built cfg w' /\ has_reading l' /\
      is_gui_shown l' = is_gui_shown l /\
      motion_reads w' = (motion_reads w + n)%nat /\
      (no_motion dev w n -> start_time l' = start_time l).
Proof.
  induction n as [|n IH]; intros l w Hp Hr.
  - exists l, w. simpl. unfold ret. rewrite Nat.add_0_r.
    repeat split; auto.
  - destruct (loop_body_returns cfg dev l w Hp Hr)
      as (l1 & w1 & E1 & Hp1 & Hr1 & Hg1 & Hm1 & Hs1).
    destruct (IH l1 w1 Hp1 Hr1) as (l2 & w2 & E2 & Hp2 & Hr2 & Hg2 & Hm2 & Hs2).
    exists l2, w2. simpl. unfold bind. rewrite E1.
    split; [exact E2|]. split; [exact Hp2|]. split; [exact Hr2|].
    split; [congruence|]. split; [lia|].
    intros Hno. rewrite Hs2, Hs1; [reflexivity| |].
    + apply Hno. lia.
    + intros i Hi. apply Hno. lia.
Qed.

Lemma count_calls_app (f : GuiCall -> bool) (w w' : World) (extra : list GuiCall) :
  calls w' = calls w ++ extra ->
  count_calls f w' = (count_calls f w + length (List.filter f extra))%nat.
Proof.
  intros H. unfold count_calls. rewrite H, List.filter_app, length_app.
  reflexivity.
Qed.

(** C9. A turn of the loop made in the PASSIVE state comes to its end
    without polling: the ambient sensor is not read, and the data set and
    the time of the last poll keep their values. So a turn in which the
    sensor is read is one made in the ACTIVE state. *)
Theorem no_poll_while_passive
    (cfg : Settings) (dev : Devices) (l : Locals) (w : World) :
  panels_built cfg w ->
  (display_state cfg (clock dev (clock_reads w)) l = PASSIVE ->
   exists l' w',
     loop_body cfg dev l w = Done (l', w') /\
     temp_reads w' = temp_reads w /\
     data_set l' = data_set l /\
     last_ambient_temp_req_time l' = last_ambient_temp_req_time l) /\
  (forall l' w',
      loop_body cfg dev l w = Done (l', w') ->
      temp_reads w' <> temp_reads w ->
      display_state cfg (clock dev (clock_reads w)) l = ACTIVE).
Proof.
  intros Hp. split.
  - intros Hs. rewrite (passive_turn cfg dev l w Hp Hs).
    eexists _, _. split; [reflexivity|]. simpl. auto.
  - intros l' w' Hrun Hne.
    destruct (display_state_cases cfg (clock dev (clock_reads w)) l)
      as [Hs|Hs]; [exact Hs|].
    rewrite (passive_turn cfg dev l w Hp Hs) in Hrun.
    injection Hrun as <- <-. simpl in Hne. congruence.
Qed.

Lemma no_poll_while_passive_witness :
  exists l' w',
    loop_body settings empty_room asleep dark_window = Done (l', w') /\
    temp_reads w' = temp_reads dark_window /\
    data_set l' = data_set asleep /\
    last_ambient_temp_req_time l' = last_ambient_temp_req_time asleep.
Proof.
  apply (no_poll_while_passive settings empty_room asleep dark_window);
    reflexivity.
Defined.

(** Counts the toolkit calls of an ACTIVE turn, whether it polled or not. *)
Ltac count_turn_calls cfg :=
  match goal with
  | |- context [PrimFloat.ltb (ambient_temp_delay_sec cfg) ?x] =>
      destruct (PrimFloat.ltb (ambient_temp_delay_sec cfg) x)
  end;
  destruct (display_debug_panel cfg && display_sleep_timer cfg);
  simpl; lia.

(** C4. Motion is sensed in a turn of the loop. The turn comes to its end
    and the timer start is the clock value read last in it. If the turn was
    made in the PASSIVE state, [show_gui] is called once and every panel is
    on the window afterwards; if it was made in the ACTIVE state, no panel
    is touched. From then on, as long as nobody moves, the timer start
    stays, and a turn entered less than [sleep_timeout_sec] after it is
    made in the ACTIVE state: it calls neither [kill_gui] nor [show_gui]
    and leaves the panels as they are. *)
Theorem motion_resets_timer_and_wakes
    (cfg : Settings) (dev : Devices) (l : Locals) (w : World) :
  panels_built cfg w -> has_reading l ->
  motion_sensor dev (motion_reads w) = true ->
  exists l' w',
    loop_body cfg dev l w = Done (l', w') /\
    (clock_reads w < Nat.pred (clock_reads w'))%nat /\
    start_time l' = clock dev (Nat.pred (clock_reads w')) /\
    (display_state cfg (clock dev (clock_reads w)) l = PASSIVE ->
     Forall (fun shown => shown = true) (packed w') /\
     count_calls is_show w' = S (count_calls is_show w)) /\
    (display_state cfg (clock dev (clock_reads w)) l = ACTIVE ->
     packed w' = packed w /\
     count_calls is_show w' = count_calls is_show w /\
     count_calls is_kill w' = count_calls is_kill w) /\
    forall n, no_motion dev w' n ->
      exists l'' w'',
        loop cfg dev n l' w' = Done (l'', w'') /\
        start_time l'' = start_time l' /\
        (PrimFloat.ltb
           (PrimFloat.sub (clock dev (clock_reads w'')) (start_time l'))
           (sleep_timeout_sec cfg) = true ->
         display_state cfg (clock dev (clock_reads w'')) l'' = ACTIVE /\
         exists l3 w3,
           loop_body cfg dev l'' w'' = Done (l3, w3) /\
           packed w3 = packed w'' /\
           count_calls is_kill w3 = count_calls is_kill w'' /\
           count_calls is_show w3 = count_calls is_show w'').
Proof.
  intros Hp Hr Hm.
  destruct (loop_body_returns cfg dev l w Hp Hr)
    as (l' & w' & Hrun & Hp' & Hr' & _).
  exists l', w'. split; [exact Hrun|].
  assert (Hturn :
    (clock_reads w < Nat.pred (clock_reads w'))%nat /\
    start_time l' = clock dev (Nat.pred (clock_reads w')) /\
    (display_state cfg (clock dev (clock_reads w)) l = PASSIVE ->
     Forall (fun shown => shown = true) (packed w') /\
     count_calls is_show w' = S (count_calls is_show w)) /\
    (display_state cfg (clock dev (clock_reads w)) l = ACTIVE ->
     packed w' = packed w /\
     count_calls is_show w' = count_calls is_show w /\
     count_calls is_kill w' = count_calls is_kill w)).
  { destruct (display_state_cases cfg (clock dev (clock_reads w)) l) as [Hs|Hs].
    - rewrite (active_turn cfg dev l w Hr Hs), Hm in Hrun.
      injection Hrun as <- <-. simpl.
      split; [destruct (PrimFloat.ltb _ _); lia|].
      split; [reflexivity|]. split; [intros Hs'; congruence|].
      intros _. split; [reflexivity|].
      split; (erewrite count_calls_app; [|simpl; reflexivity]);
        rewrite !List.filter_app, !length_app;
        destruct Hr as (t & h & Hds); rewrite ?Hds;
        count_turn_calls cfg.
    - rewrite (passive_turn cfg dev l w Hp Hs), Hm in Hrun.
      injection Hrun as <- <-. simpl.
      split; [lia|]. split; [reflexivity|]. split; [|intros Hs'; congruence].
      intros _. split.
      + apply Forall_forall. intros b Hb. apply list_elem_of_fmap in Hb.
        destruct Hb as (? & -> & _). reflexivity.
      + erewrite count_calls_app; [|simpl; reflexivity].
        rewrite !List.filter_app, !length_app.
        destruct (is_gui_shown l); simpl; lia. }
  destruct Hturn as (H1 & H2 & H3 & H4).
  split; [exact H1|]. split; [exact H2|]. split; [exact H3|].
  split; [exact H4|].
  intros n Hno.
  destruct (loop_returns cfg dev n l' w' Hp' Hr')
    as (l'' & w'' & Hloop & Hp'' & Hr'' & _ & _ & Hst).
  exists l'', w''. split; [exact Hloop|]. split; [exact (Hst Hno)|].
  intros Hlt.
  assert (Hs : display_state cfg (clock dev (clock_reads w'')) l'' = ACTIVE).
  { unfold display_state. rewrite (Hst Hno), Hlt. reflexivity. }
  split; [exact Hs|].
  rewrite (active_turn cfg dev l'' w'' Hr'' Hs). eexists _, _.
  split; [reflexivity|]. simpl. split; [reflexivity|].
  split; (erewrite count_calls_app; [|simpl; reflexivity]);
    rewrite !List.filter_app, !length_app;
    destruct Hr'' as (t & h & Hds); rewrite ?Hds;
    count_turn_calls cfg.
Qed.

Lemma motion_resets_timer_and_wakes_witness :
  exists l' w',
    loop_body settings one_visit asleep dark_window = Done (l', w') /\
    start_time l' = 1002%float /\
    packed w' = [true; true; true] /\
    exists l'' w'',
      loop settings one_visit 1 l' w' = Done (l'', w'') /\
      start_time l'' = 1002%float /\
      display_state settings (clock one_visit (clock_reads w'')) l'' = ACTIVE.
Proof.
  destruct (motion_resets_timer_and_wakes settings one_visit asleep dark_window)
    as (l' & w' & Hrun & _ & Hst & _ & _ & Hnext).
  - reflexivity.
  - exists 21.46%float, 40.12%float. reflexivity.
  - reflexivity.
  - exists l', w'. split; [exact Hrun|].
    vm_compute in Hrun. injection Hrun as <- <-.
    split; [reflexivity|]. split; [reflexivity|].
    destruct (Hnext 1%nat) as (l'' & w'' & Hloop & Hst'' & Hact).
    { intros i Hi. simpl in Hi. destruct i; [lia|reflexivity]. }
    exists l'', w''. split; [exact Hloop|]. split; [exact Hst''|].
    apply Hact. vm_compute in Hloop. injection Hloop as <- <-.
    reflexivity.
Defined.

(** ** [kill_gui] in the PASSIVE state *)

(** No turn of the loop assigns [is_gui_shown], so in every PASSIVE turn
    [kill_gui] is called. *)
Lemma passive_turn_calls_kill_gui
    (cfg : Settings) (dev : Devices) (l : Locals) (w : World) :
  panels_built cfg w -> is_gui_shown l = true ->
  display_state cfg (clock dev (clock_reads w)) l = PASSIVE ->
  exists l' w',
    loop_body cfg dev l w = Done (l', w') /\
    is_gui_shown l' = true /\
    count_calls is_kill w' = S (count_calls is_kill w).
Proof.
  intros Hp Hg Hs. rewrite (passive_turn cfg dev l w Hp Hs).
  eexists _, _. split; [reflexivity|]. simpl. split; [exact Hg|].
  erewrite count_calls_app; [|simpl; reflexivity].
  rewrite Hg, !List.filter_app, !length_app.
  destruct (motion_sensor dev _); simpl; lia.
Qed.

(** C1 does not hold of the code. The program is started in the empty
    room and makes four turns of the loop. The first is made in the ACTIVE
    state; the timer has run out at the second, and [kill_gui] is called in
    the second, in the third and in the fourth turn: three times, with no
    call of [show_gui] in between, and [is_gui_shown] is still true. *)
Theorem kill_gui_called_in_every_passive_turn :
  exists l w,
    main settings empty_room 4 = Done (l, w) /\
    List.filter (fun c => is_kill c || is_show c) (calls w)
    = [KillGui; KillGui; KillGui] /\
    count_calls is_kill w = 3%nat /\
    is_gui_shown l = true /\
    packed w = [false; false; false].
Proof.
  eexists _, _. split; [vm_compute; reflexivity|].
  repeat split.
Qed.

(** * Part III: further properties of the code *)

(** ** The frame source on any stream of frames *)




(** ** More on the temperature conversions *)

Lemma SFltb_trans (a b c : spec_float) :
  SFltb a b = true -> SFltb b c = true -> SFltb a c = true.
Proof.
  unfold SFltb, SFcompare.
  destruct a as [sa|sa| |sa ma ea], b as [sb|sb| |sb mb eb],
           c as [sc|sc| |sc mc ec];
    repeat match goal with s : bool |- _ => destruct s end;
    try (intros; reflexivity); try (intros; discriminate);
    change (Pos.compare_cont Eq) with Pos.compare;
    destruct (Z.compare_spec ea eb), (Z.compare_spec eb ec),
             (Z.compare_spec ea ec);
    try lia; try (intros; reflexivity); try (intros; discriminate);
    destruct (Pos.compare_spec ma mb), (Pos.compare_spec mb mc),
             (Pos.compare_spec ma mc);
    simpl; try lia; try (intros; reflexivity); try (intros; discriminate).
Qed.

Lemma SFltb_asym (a b : spec_float) :
  SFltb a b = true -> SFltb b a = false.
Proof.
  unfold SFltb, SFcompare.
  destruct a as [sa|sa| |sa ma ea], b as [sb|sb| |sb mb eb];
    repeat match goal with s : bool |- _ => destruct s end;
    try (intros; reflexivity); try (intros; discriminate);
    change (Pos.compare_cont Eq) with Pos.compare;
    destruct (Z.compare_spec ea eb), (Z.compare_spec eb ea);
    try lia; try (intros; reflexivity); try (intros; discriminate);
    destruct (Pos.compare_spec ma mb), (Pos.compare_spec mb ma);
    simpl; try lia; try (intros; reflexivity); try (intros; discriminate).
Qed.

Lemma ltb_trans (x y z : float) :
  PrimFloat.ltb x y = true -> PrimFloat.ltb y z = true ->
  PrimFloat.ltb x z = true.
Proof. rewrite !ltb_spec. apply SFltb_trans. Qed.

Lemma ltb_asym (x y : float) :
  PrimFloat.ltb x y = true -> PrimFloat.ltb y x = false.
Proof. rewrite !ltb_spec. apply SFltb_asym. Qed.

Lemma ltb_irrefl (x : float) : PrimFloat.ltb x x = false.
Proof.
  destruct (PrimFloat.ltb x x) eqn:E; [|reflexivity].
  rewrite (ltb_asym x x E) in E. discriminate.
Qed.

Lemma ktoc_celsius (raw : Z) : ktoc (of_int raw) = Done (celsius raw).
Proof. reflexivity. Qed.

Lemma ktof_fahrenheit (raw : Z) : ktof (of_int raw) = Done (fahrenheit raw).
Proof. reflexivity. Qed.

Lemma conversions_steps_checked :
  forall_range conversions_step_strict 0 (Z.to_nat 65535) = true.
Proof. vm_compute. reflexivity. Qed.

Lemma conversions_step (raw : Z) :
  0 <= raw < 65535 ->
  PrimFloat.ltb (celsius raw) (celsius (raw + 1)) = true /\
  PrimFloat.ltb (fahrenheit raw) (fahrenheit (raw + 1)) = true.
Proof.
  intros H.
  assert (Hs : conversions_step_strict raw = true).
  { apply (forall_range_spec _ (Z.to_nat 65535) 0);
      [apply conversions_steps_checked|lia]. }
  unfold conversions_step_strict in Hs.
  rewrite !ktoc_celsius, !ktof_fahrenheit in Hs.
  apply andb_true_iff in Hs. exact Hs.
Qed.

Lemma conversions_strict_nat (n : nat) (raw : Z) :
  0 <= raw -> raw + Z.of_nat (S n) <= 65535 ->
  PrimFloat.ltb (celsius raw) (celsius (raw + Z.of_nat (S n))) = true /\
  PrimFloat.ltb (fahrenheit raw) (fahrenheit (raw + Z.of_nat (S n))) = true.
Proof.
  induction n as [|n IH]; intros H0 H1.
  - replace (raw + Z.of_nat 1) with (raw + 1) by lia.
    apply conversions_step. lia.
  - destruct IH as [IHc IHf]; [lia|lia|].
    replace (raw + Z.of_nat (S (S n))) with (raw + Z.of_nat (S n) + 1) by lia.
    destruct (conversions_step (raw + Z.of_nat (S n))) as [Hc Hf]; [lia|].
    split; [exact (ltb_trans _ _ _ IHc Hc)|exact (ltb_trans _ _ _ IHf Hf)].
Qed.

Lemma conversions_strict (raw raw' : Z) :
  0 <= raw -> raw < raw' -> raw' <= 65535 ->
  PrimFloat.ltb (celsius raw) (celsius raw') = true /\
  PrimFloat.ltb (fahrenheit raw) (fahrenheit raw') = true.
Proof.
  intros H0 H1 H2.
  replace raw' with (raw + Z.of_nat (S (Z.to_nat (raw' - raw - 1)))) by lia.
  apply conversions_strict_nat; lia.
Qed.

(** X2. On the 16-bit range both conversions grow strictly with the raw
    code: a greater raw code gives a greater Celsius and a greater
    Fahrenheit value. So two raw codes with the same Fahrenheit value are
    the same code: the conversion loses no reading. *)
Theorem conversions_strictly_increasing (raw raw' : Z) :
  0 <= raw <= 65535 -> 0 <= raw' <= 65535 ->
  (raw < raw' ->
   exists c c' f f',
     ktoc (of_int raw) = Done c /\ ktoc (of_int raw') = Done c' /\
     ktof (of_int raw) = Done f /\ ktof (of_int raw') = Done f' /\
     PrimFloat.ltb c c' = true /\ PrimFloat.ltb f f' = true) /\
  (ktof (of_int raw) = ktof (of_int raw') -> raw = raw').
Proof.
  intros Hr Hr'. split.
  - intros Hlt. destruct (conversions_strict raw raw') as [Hc Hf]; try lia.
    exists (celsius raw), (celsius raw'), (fahrenheit raw), (fahrenheit raw').
    repeat split; assumption.
  - rewrite !ktof_fahrenheit. intros [= E].
    destruct (Z.lt_trichotomy raw raw') as [Hlt|[Heq|Hgt]]; [|exact Heq|].
    + destruct (conversions_strict raw raw') as [_ Hf]; try lia.
      rewrite E, ltb_irrefl in Hf. discriminate.
    + destruct (conversions_strict raw' raw) as [_ Hf]; try lia.
      rewrite E, ltb_irrefl in Hf. discriminate.
Qed.

Lemma conversions_strictly_increasing_witness :
  (exists c c' f f',
      ktoc (of_int 27315) = Done c /\ ktoc (of_int 30000) = Done c' /\
      ktof (of_int 27315) = Done f /\ ktof (of_int 30000) = Done f' /\
      PrimFloat.ltb c c' = true /\ PrimFloat.ltb f f' = true) /\
  (ktof (of_int 27315) = ktof (of_int 27315) -> 27315 = 27315).
Proof.
  destruct (conversions_strictly_increasing 27315 30000) as [Hlt _];
    [lia|lia|].
  destruct (conversions_strictly_increasing 27315 27315) as [_ Hinj];
    [lia|lia|].
  split; [apply Hlt; lia|exact Hinj].
Defined.

(** X3. The raw code 27315 is the freezing point: [ktoc] gives exactly 0.0
    and [ktof] exactly 32.0 there; [ktoc] is negative exactly for the raw
    codes below 27315, and [ktof] is below 32.0 exactly for those. *)
Theorem freezing_point_at_27315 (raw : Z) :
  0 <= raw <= 65535 ->
  ktoc (of_int 27315) = Done 0%float /\
  ktof (of_int 27315) = Done 32%float /\
  exists c f,
    ktoc (of_int raw) = Done c /\ ktof (of_int raw) = Done f /\
    (PrimFloat.ltb c 0%float = true <-> raw < 27315) /\
    (PrimFloat.ltb f 32%float = true <-> raw < 27315).
Proof.
  intros Hr. split; [reflexivity|]. split; [reflexivity|].
  exists (celsius raw), (fahrenheit raw).
  split; [reflexivity|]. split; [reflexivity|].
  change 0%float with (celsius 27315). change 32%float with (fahrenheit 27315).
  destruct (Z.lt_trichotomy raw 27315) as [Hlt|[->|Hgt]].
  - destruct (conversions_strict raw 27315) as [Hc Hf]; try lia.
    rewrite Hc, Hf. split; split; auto.
  - rewrite !ltb_irrefl. split; split; try discriminate; lia.
  - destruct (conversions_strict 27315 raw) as [Hc Hf]; try lia.
    rewrite (ltb_asym _ _ Hc), (ltb_asym _ _ Hf).
    split; split; try discriminate; lia.
Qed.

Lemma freezing_point_at_27315_witness :
  exists c f,
    ktoc (of_int 20000) = Done c /\ ktof (of_int 20000) = Done f /\
    (PrimFloat.ltb c 0%float = true <-> 20000 < 27315) /\
    (PrimFloat.ltb f 32%float = true <-> 20000 < 27315).
Proof.
  destruct (freezing_point_at_27315 20000) as (_ & _ & H); [lia|exact H].
Defined.

(** X4. On the 16-bit range the Celsius value lies between -273.15 (raw
    code 0) and 382.2 (raw code 65535), and the Fahrenheit value between
    -459.66999999999996 and 719.96: no raw code is shown as a temperature
    below absolute zero. *)
Theorem conversions_bounded (raw : Z) :
  0 <= raw <= 65535 ->
  exists c f,
    ktoc (of_int raw) = Done c /\ ktof (of_int raw) = Done f /\
    PrimFloat.leb (PrimFloat.opp 273.15%float) c = true /\
    PrimFloat.leb c 382.2%float = true /\
    PrimFloat.leb (PrimFloat.opp 459.66999999999996%float) f = true /\
    PrimFloat.leb f 719.96%float = true.
Proof.
  intros Hr. exists (celsius raw), (fahrenheit raw).
  split; [reflexivity|]. split; [reflexivity|].
  assert (Hlt_le : forall x y, PrimFloat.ltb x y = true ->
                               PrimFloat.leb x y = true).
  { intros x y. rewrite ltb_spec, leb_spec. unfold SFltb, SFleb.
    destruct (SFcompare _ _) as [[]|]; congruence. }
  change (PrimFloat.opp 273.15%float) with (celsius 0).
  change 382.2%float with (celsius 65535).
  change (PrimFloat.opp 459.66999999999996%float) with (fahrenheit 0).
  change 719.96%float with (fahrenheit 65535).
  assert (H0 : PrimFloat.leb (celsius 0) (celsius 0) = true) by reflexivity.
  assert (H1 : PrimFloat.leb (celsius 65535) (celsius 65535) = true)
    by reflexivity.
  assert (H2 : PrimFloat.leb (fahrenheit 0) (fahrenheit 0) = true)
    by reflexivity.
  assert (H3 : PrimFloat.leb (fahrenheit 65535) (fahrenheit 65535) = true)
    by reflexivity.
  destruct (Z.eq_dec raw 0) as [E0|Hn0];
    destruct (Z.eq_dec raw 65535) as [E1|Hn1]; try lia.
  - subst raw. destruct (conversions_strict 0 65535) as [Hc Hf]; try lia.
    repeat split; auto.
  - subst raw. destruct (conversions_strict 0 65535) as [Hc Hf]; try lia.
    repeat split; auto.
  - destruct (conversions_strict 0 raw) as [Hc Hf]; try lia.
    destruct (conversions_strict raw 65535) as [Hc' Hf']; try lia.
    repeat split; auto.
Qed.

Lemma conversions_bounded_witness :
  exists c f,
    ktoc (of_int 30000) = Done c /\ ktof (of_int 30000) = Done f /\
    PrimFloat.leb (PrimFloat.opp 273.15%float) c = true /\
    PrimFloat.leb c 382.2%float = true /\
    PrimFloat.leb (PrimFloat.opp 459.66999999999996%float) f = true /\
    PrimFloat.leb f 719.96%float = true.
Proof. apply (conversions_bounded 30000). lia. Defined.

(** ** More on the thermal processor *)





















(** ** More on the render loop *)

(** X8. [kill_gui] and [show_gui] reach into the first two panels, and
    into the third if the debug panel is enabled. On a shorter panel list
    both raise [IndexError]. Otherwise [kill_gui] takes exactly those
    panels off the window and leaves any further panel alone, a second
    [kill_gui] changes no panel, and [show_gui] after [kill_gui] puts
    exactly those panels back on, whatever was shown before. *)
Theorem kill_gui_show_gui_panels (cfg : Settings) (w : World) :
  ((length (packed w) < needed_panels cfg)%nat ->
   kill_gui cfg w = Raises IndexError /\ show_gui cfg w = Raises IndexError) /\
  ((needed_panels cfg <= length (packed w))%nat ->
   kill_gui cfg w = Done (tt, after_gui_call cfg false KillGui w) /\
   show_gui cfg w = Done (tt, after_gui_call cfg true ShowGui w) /\
   packed (after_gui_call cfg false KillGui (after_gui_call cfg false KillGui w))
   = packed (after_gui_call cfg false KillGui w) /\
   show_gui cfg (after_gui_call cfg false KillGui w)
   = Done (tt, {| clock_reads := clock_reads w; temp_reads := temp_reads w;
                  motion_reads := motion_reads w;
                  packed := replicate (needed_panels cfg) true
                              ++ drop (needed_panels cfg) (packed w);
                  calls := calls w ++ [KillGui; ShowGui] |})).
Proof.
  unfold kill_gui, show_gui, after_gui_call, needed_panels.
  destruct w as [cr tr mr ps cs]. simpl.
  split; intros H.
  - destruct (display_debug_panel cfg);
      destruct ps as [|a [|b [|c rest]]]; simpl in H; try lia;
      split; reflexivity.
  - destruct (display_debug_panel cfg);
      destruct ps as [|a [|b [|c rest]]]; simpl in H; try lia;
      unfold_loop; simpl; rewrite <- ?app_assoc;
      repeat split; reflexivity.
Qed.

Lemma kill_gui_show_gui_panels_witness :
  kill_gui settings dark_window
  = Done (tt, after_gui_call settings false KillGui dark_window) /\
  show_gui settings (after_gui_call settings false KillGui dark_window)
  = Done (tt, {| clock_reads := 0; temp_reads := 1; motion_reads := 0;
                 packed := [true; true; true];
                 calls := [KillGui; ShowGui] |}).
Proof.
  destruct (kill_gui_show_gui_panels settings dark_window) as [_ H].
  destruct H as (Hk & _ & _ & Hs); [vm_compute; lia|].
  split; [exact Hk|exact Hs].
Defined.


(** What one turn of the loop reads and calls. *)
Lemma turn_reads_and_calls
    (cfg : Settings) (dev : Devices) (l : Locals) (w : World) :
  panels_built cfg w -> has_reading l ->
  exists l' w' middle,
    loop_body cfg dev l w = Done (l', w') /\
    motion_reads w' = S (motion_reads w) /\
    (temp_reads w <= temp_reads w' <= S (temp_reads w))%nat /\
    (clock_reads w < clock_reads w' <= clock_reads w + 4)%nat /\
    calls w' = calls w ++ middle ++ turn_end cfg.
Proof.
  intros Hp Hr.
  destruct (display_state_cases cfg (clock dev (clock_reads w)) l) as [Hs|Hs].
  - rewrite (active_turn cfg dev l w Hr Hs). eexists _, _, _.
    split; [reflexivity|]. simpl. split; [reflexivity|].
    split; [|split].
    + match goal with
      | |- context [PrimFloat.ltb (ambient_temp_delay_sec cfg) ?x] =>
          destruct (PrimFloat.ltb (ambient_temp_delay_sec cfg) x)
      end; lia.
    + match goal with
      | |- context [PrimFloat.ltb (ambient_temp_delay_sec cfg) ?x] =>
          destruct (PrimFloat.ltb (ambient_temp_delay_sec cfg) x)
      end; destruct (motion_sensor dev _); lia.
    + apply (f_equal (app (calls w))). rewrite app_assoc. reflexivity.
  - rewrite (passive_turn cfg dev l w Hp Hs). eexists _, _, _.
    split; [reflexivity|]. simpl. split; [reflexivity|].
    split; [lia|]. split; [destruct (motion_sensor dev _); lia|].
    apply (f_equal (app (calls w))). rewrite app_assoc. reflexivity.
Qed.




(** X10. If the clock is within [ambient_temp_delay_sec] of 0 when the
    program starts, the first poll does not read the sensor and hands back
    the placeholder [0] as data set; building the data panel from it raises
    [AttributeError], before the loop is entered and before any reading of
    the motion sensor. *)
Theorem main_raises_without_first_reading
    (cfg : Settings) (dev : Devices) (n : nat) :
  PrimFloat.ltb (ambient_temp_delay_sec cfg)
    (PrimFloat.sub (clock dev 0%nat) 0%float) = false ->
  get_ambient_temp_data cfg dev 0%float (NoData 0) world0
  = Done ((NoData 0, 0%float),
          {| clock_reads := 1; temp_reads := 0; motion_reads := 0;
             packed := []; calls := [] |}) /\
  boot cfg dev world0 = Raises AttributeError /\
  main cfg dev n = Raises AttributeError.
Proof.
  intros H.
  pose proof (poll_cached cfg dev 0%float (NoData 0) world0 H) as E.
  split; [exact E|].
  unfold main, boot, bind. rewrite E. split; reflexivity.
Qed.

(** A clock that starts at 2 s. *)
Lemma main_raises_without_first_reading_witness :
  main settings
    {| clock := fun n => PrimFloat.add 2%float (of_int (Z.of_nat n));
       tmpsensor := fun _ => (40.123%float, 21.456%float);
       motion_sensor := fun _ => false |} 3
  = Raises AttributeError.
Proof.
  apply (main_raises_without_first_reading settings
           {| clock := fun n => PrimFloat.add 2%float (of_int (Z.of_nat n));
              tmpsensor := fun _ => (40.123%float, 21.456%float);
              motion_sensor := fun _ => false |} 3).
  reflexivity.
Defined.

(** X11. Every turn of the loop, in either state, reads the motion sensor
    exactly once and the ambient sensor at most once, reads the clock at
    least once and at most four times, and ends with the same three calls:
    [update_idletasks], [update] and a sleep of
    [screen_max_frame_time_sec]. *)
Theorem every_turn_samples_motion_once_and_sleeps
    (cfg : Settings) (dev : Devices) (l : Locals) (w : World) :
  panels_built cfg w -> has_reading l ->
  exists l' w' middle,
    loop_body cfg dev l w = Done (l', w') /\
    motion_reads w' = S (motion_reads w) /\
    (temp_reads w <= temp_reads w' <= S (temp_reads w))%nat /\
    (clock_reads w < clock_reads w' <= clock_reads w + 4)%nat /\
    calls w' = calls w ++ middle
                 ++ [UpdateIdletasks; Update;
                     Sleep (screen_max_frame_time_sec cfg)].
Proof. exact (turn_reads_and_calls cfg dev l w). Qed.

Lemma every_turn_samples_motion_once_and_sleeps_witness :
  exists l' w' middle,
    loop_body settings one_visit asleep dark_window = Done (l', w') /\
    motion_reads w' = 1%nat /\
    (1 <= temp_reads w' <= 2)%nat /\
    (0 < clock_reads w' <= 4)%nat /\
    calls w' = middle ++ [UpdateIdletasks; Update; Sleep 0.033%float].
Proof.
  apply (every_turn_samples_motion_once_and_sleeps settings one_visit
           asleep dark_window).
  - reflexivity.
  - exists 21.46%float, 40.12%float. reflexivity.
Defined.

Lemma passive_motionless_turn
    (cfg : Settings) (dev : Devices) (l : Locals) (w : World) :
  panels_built cfg w -> is_gui_shown l = true ->
  display_state cfg (clock dev (clock_reads w)) l = PASSIVE ->
  motion_sensor dev (motion_reads w) = false ->
  loop_body cfg dev l w =
  Done (l, {| clock_reads := S (clock_reads w); temp_reads := temp_reads w;
              motion_reads := S (motion_reads w);
              packed := map (fun _ => false) (packed w);
              calls := calls w ++ [KillGui] ++ turn_end cfg |}).
Proof.
  intros Hp Hg Hs Hm. rewrite (passive_turn cfg dev l w Hp Hs), Hm, Hg.
  destruct l; simpl in *. subst. reflexivity.
Qed.

(** X12. While the timer has run out and nobody moves, every turn of the
    loop calls [kill_gui] again: [n] such turns in a row make [n] calls of
    [kill_gui] and none of [show_gui], read the clock and the motion
    sensor once per turn and the ambient sensor not at all, leave every
    loop variable as it was, and after the first of them all panels are
    off the window. *)
Theorem kill_gui_once_per_passive_turn
    (cfg : Settings) (dev : Devices) (n : nat) :
  forall (l : Locals) (w : World),
    panels_built cfg w -> is_gui_shown l = true ->
    no_motion dev w n ->
    (forall i, (i < n)%nat ->
               display_state cfg (clock dev (clock_reads w + i)) l = PASSIVE) ->
    exists w',
      loop cfg dev n l w = Done (l, w') /\
      count_calls is_kill w' = (count_calls is_kill w + n)%nat /\
      count_calls is_show w' = count_calls is_show w /\
      clock_reads w' = (clock_reads w + n)%nat /\
      motion_reads w' = (motion_reads w + n)%nat /\
      temp_reads w' = temp_reads w /\
      ((0 < n)%nat -> packed w' = map (fun _ => false) (packed w)).
Proof.
  induction n as [|n IH]; intros l w Hp Hg Hno Hs.
  - exists w. simpl. unfold ret. repeat split; auto; lia.
  - assert (Hs0 : display_state cfg (clock dev (clock_reads w)) l = PASSIVE).
    { specialize (Hs 0%nat). rewrite Nat.add_0_r in Hs. apply Hs. lia. }
    assert (Hm0 : motion_sensor dev (motion_reads w) = false)
      by (apply Hno; lia).
    pose proof (passive_motionless_turn cfg dev l w Hp Hg Hs0 Hm0) as E.
    set (w1 := {| clock_reads := S (clock_reads w) |}) in E.
    destruct (IH l w1) as (w' & E' & Hk & Hsh & Hc & Hm & Ht & Hpk).
    + unfold panels_built in *. simpl. rewrite length_map. exact Hp.
    + exact Hg.
    + intros i Hi. simpl in Hi. apply Hno. lia.
    + intros i Hi. simpl. replace (S (clock_reads w + i)) with
        (clock_reads w + S i)%nat by lia. apply Hs. lia.
    + exists w'. simpl. unfold bind. rewrite E.
      split; [exact E'|]. simpl in *.
      rewrite Hk, Hsh, Hc, Hm, Ht.
      rewrite (count_calls_app is_kill w w1 ([KillGui] ++ turn_end cfg))
        by reflexivity.
      rewrite (count_calls_app is_show w w1 ([KillGui] ++ turn_end cfg))
        by reflexivity.
      simpl. repeat split; try lia.
      intros _. destruct n as [|n'].
      * simpl in E'. unfold ret in E'. injection E' as <-. reflexivity.
      * rewrite Hpk by lia. rewrite map_map. reflexivity.
Qed.

Lemma kill_gui_once_per_passive_turn_witness :
  exists w',
    loop settings empty_room 3 asleep dark_window = Done (asleep, w') /\
    count_calls is_kill w' = 3%nat /\
    count_calls is_show w' = 0%nat /\
    temp_reads w' = 1%nat.
Proof.
  destruct (kill_gui_once_per_passive_turn settings empty_room 3
              asleep dark_window)
    as (w' & E & Hk & Hs & _ & _ & Ht & _).
  - reflexivity.
  - reflexivity.
  - intros i _. reflexivity.
  - intros i Hi. destruct i as [|[|[|i]]]; [reflexivity..|lia].
  - exists w'. auto.
Defined.

(** ** The camera driver handles *)

Lemma default_fps_cases (f : Uvc.frame_desc) :
  (exists n, Uvc.default_fps f = Uvc.ret n /\ Uvc.fps_ok f = true) \/
  (exists e, Uvc.default_fps f = Uvc.raise e /\ Uvc.fps_ok f = false).
Proof.
  unfold Uvc.fps_ok, Uvc.default_fps.
  destruct (truediv _ _) as [x| |];
    [destruct (Uvc.int_of_float x) as [n|]|..];
    [left|right|right|right]; eexists; split; reflexivity.
Qed.

Lemma leb_0_ltb (x : Z) : (0 <=? x) = negb (x <? 0).
Proof. destruct (Z.leb_spec 0 x), (Z.ltb_spec x 0); simpl; lia. Qed.

(** X13. However the start-up goes and however the body ends, the handles
    are given back at the very end, innermost first, and each at most
    once: [uvc_stop_streaming] if streaming was started, then
    [uvc_unref_device] if the device was opened, then [uvc_exit] if the
    driver was initialised; no release is called before that. The body is
    run only with all three in hand, and an exception of the body comes out
    of the program unchanged after the three releases. *)
Theorem handles_released_in_reverse_order (drv : Uvc.Driver) :
  exists (r : Uvc.result unit) (before : list Uvc.call),
    Uvc.main drv [] = (r, before ++ Uvc.releases drv) /\
    List.filter Uvc.is_release before = [] /\
    (In Uvc.body before <-> Uvc.streaming drv = true) /\
    (Uvc.streaming drv = true ->
     r = match Uvc.body_res drv with
         | None => Uvc.Ok tt
         | Some e => Uvc.Err e
         end).
Proof.
  unfold Uvc.releases, Uvc.streaming, Uvc.negotiated, Uvc.opened, Uvc.found,
    Uvc.inited.
  rewrite !leb_0_ltb.
  unfold Uvc.main, Uvc.with_, Uvc.Uvc_enter, Uvc.Uvc_exit, Uvc.open,
    Uvc.find_device, Uvc.Device_enter, Uvc.Device_exit, Uvc.Stream_enter,
    Uvc.Stream_exit, Uvc.run_body, Uvc.bind, Uvc.do, Uvc.ret, Uvc.raise.
  simpl.
  destruct (Uvc.init_res drv <? 0); simpl.
  { eexists _, [_]. split; [reflexivity|]. simpl.
    split; [reflexivity|]. split; [|discriminate].
    split; [intros [H|[]]; discriminate|discriminate]. }
  destruct (Uvc.find_res drv <? 0); simpl.
  { eexists _, [_; _]. split; [reflexivity|]. simpl.
    split; [reflexivity|]. split; [|discriminate].
    split; [intros [H|[H|[]]]; discriminate|discriminate]. }
  destruct (Uvc.open_res drv <? 0); simpl.
  { eexists _, [_; _; _]. split; [reflexivity|]. simpl.
    split; [reflexivity|]. split; [|discriminate].
    split; [intros [H|[H|[H|[]]]]; discriminate|discriminate]. }
  destruct (Uvc.frame_formats drv) as [|f0 rest]; simpl.
  { eexists _, [_; _; _; _; _; _; _]. split; [reflexivity|]. simpl.
    split; [reflexivity|]. split; [|discriminate].
    split; [|discriminate].
    intros H. repeat (destruct H as [H|H]; [discriminate|]). destruct H. }
  destruct (default_fps_cases f0) as [(n & -> & ->)|(e & -> & ->)];
    unfold Uvc.ret, Uvc.raise; simpl.
  - destruct (Uvc.start_res drv <? 0); simpl.
    + eexists _, [_; _; _; _; _; _; _; _]. split; [reflexivity|]. simpl.
      split; [reflexivity|]. split; [|discriminate].
      split; [|discriminate].
      intros H. repeat (destruct H as [H|H]; [discriminate|]). destruct H.
    + destruct (Uvc.body_res drv) as [e|]; simpl;
        (eexists _, [_; _; _; _; _; _; _; _; _]; split; [reflexivity|];
         simpl; split; [reflexivity|]; split; [|reflexivity];
         split; [reflexivity|]; intros _; do 8 right; left; reflexivity).
  - eexists _, [_; _; _; _; _; _]. split; [reflexivity|]. simpl.
    split; [reflexivity|]. split; [|discriminate].
    split; [|discriminate].
    intros H. repeat (destruct H as [H|H]; [discriminate|]). destruct H.
Qed.

(** A run that is interrupted in the loop. *)
Lemma interrupted_run_gives_handles_back :
  Uvc.main Uvc.camera_interrupted []
  = (Uvc.Err (Uvc.SystemExit 130),
     [Uvc.uvc_init; Uvc.uvc_find_device; Uvc.uvc_open; Uvc.print_device_info;
      Uvc.print_device_formats; Uvc.uvc_get_frame_formats_by_guid;
      Uvc.uvc_get_stream_ctrl_format_size 160 120 9; Uvc.uvc_start_streaming;
      Uvc.body]
     ++ Uvc.releases Uvc.camera_interrupted).
Proof. vm_compute. reflexivity. Qed.

(** X14. What happens when the camera cannot be used, with the driver
    initialised and the device found. If the device cannot be opened, the
    program ends with [DeviceNotAvailable] and only [uvc_exit] is called:
    the device that was found is not unreferenced. If the device has no Y16
    format, the message is printed and the program ends with
    [SystemExit(1)]; if the first Y16 format has a frame interval of 0, it
    ends with [ZeroDivisionError]. In both cases no format is negotiated,
    streaming is never started, and the device is unreferenced and the
    driver left. *)
Theorem unusable_camera (drv : Uvc.Driver) :
  0 <= Uvc.init_res drv -> 0 <= Uvc.find_res drv ->
  (Uvc.open_res drv < 0 ->
   Uvc.main drv []
   = (Uvc.Err Uvc.DeviceNotAvailable,
      [Uvc.uvc_init; Uvc.uvc_find_device; Uvc.uvc_open; Uvc.uvc_exit])) /\
  (0 <= Uvc.open_res drv -> Uvc.frame_formats drv = [] ->
   Uvc.main drv []
   = (Uvc.Err (Uvc.SystemExit 1),
      [Uvc.uvc_init; Uvc.uvc_find_device; Uvc.uvc_open;
       Uvc.print_device_info; Uvc.print_device_formats;
       Uvc.uvc_get_frame_formats_by_guid; Uvc.print Uvc.no_y16;
       Uvc.uvc_unref_device; Uvc.uvc_exit])) /\
  (0 <= Uvc.open_res drv ->
   forall f0 rest,
     Uvc.frame_formats drv = f0 :: rest ->
     Uvc.dwDefaultFrameInterval f0 = 0 ->
     Uvc.main drv []
     = (Uvc.Err Uvc.ZeroDivisionError,
        [Uvc.uvc_init; Uvc.uvc_find_device; Uvc.uvc_open;
         Uvc.print_device_info; Uvc.print_device_formats;
         Uvc.uvc_get_frame_formats_by_guid;
         Uvc.uvc_unref_device; Uvc.uvc_exit])).
Proof.
  intros Hi Hf.
  unfold Uvc.main, Uvc.with_, Uvc.Uvc_enter, Uvc.Uvc_exit, Uvc.open,
    Uvc.find_device, Uvc.Device_enter, Uvc.Device_exit, Uvc.bind, Uvc.do,
    Uvc.ret, Uvc.raise.
  simpl.
  destruct (Z.ltb_spec (Uvc.init_res drv) 0); [lia|].
  destruct (Z.ltb_spec (Uvc.find_res drv) 0); [lia|]. simpl.
  split; [|split].
  - intros Ho. destruct (Z.ltb_spec (Uvc.open_res drv) 0); [|lia].
    reflexivity.
  - intros Ho Hfmt. destruct (Z.ltb_spec (Uvc.open_res drv) 0); [lia|].
    rewrite Hfmt. reflexivity.
  - intros Ho f0 rest Hfmt Hz.
    destruct (Z.ltb_spec (Uvc.open_res drv) 0); [lia|].
    rewrite Hfmt. simpl. unfold Uvc.default_fps. rewrite Hz. reflexivity.
Qed.

Lemma unusable_camera_witness :
  Uvc.main Uvc.camera_busy []
  = (Uvc.Err Uvc.DeviceNotAvailable,
     [Uvc.uvc_init; Uvc.uvc_find_device; Uvc.uvc_open; Uvc.uvc_exit]) /\
  fst (Uvc.main Uvc.camera_no_y16 []) = Uvc.Err (Uvc.SystemExit 1) /\
  fst (Uvc.main Uvc.camera_no_interval []) = Uvc.Err Uvc.ZeroDivisionError.
Proof.
  destruct (unusable_camera Uvc.camera_busy) as (H1 & _ & _);
    [simpl; lia..|].
  destruct (unusable_camera Uvc.camera_no_y16) as (_ & H2 & _);
    [simpl; lia..|].
  destruct (unusable_camera Uvc.camera_no_interval) as (_ & _ & H3);
    [simpl; lia..|].
  split; [apply H1; simpl; lia|].
  split.
  - rewrite H2; [reflexivity|simpl; lia|reflexivity].
  - rewrite (H3 ltac:(simpl; lia) _ _ eq_refl eq_refl). reflexivity.
Defined.

(** ** The labels *)

Lemma get_first {V : Type} (k : string) (v : V) (rest : list (string * V)) :
  Labels.get ((k, v) :: rest) k = Some v.
Proof. simpl. rewrite String.eqb_refl. reflexivity. Qed.

Lemma get_other {V : Type} (k k' : string) (v : V) (rest : list (string * V)) :
  k <> k' -> Labels.get ((k, v) :: rest) k' = Labels.get rest k'.
Proof.
  intros H. simpl. destruct (String.eqb_spec k k'); [contradiction|reflexivity].
Qed.

(** X15. [update_string_pointers] returns exactly when the data set has
    every key of the labels. It then keeps the labels and their order and
    sets each one to its key, a colon and the [str] of the value the data
    set has for that key; keys the data set has beyond those of the labels
    are not shown. Otherwise it raises [KeyError] for the first label, in
    the order of the labels, whose key the data set lacks. *)
Theorem update_string_pointers_result
    (str : Labels.PyVal -> string)
    (string_pointers : list (string * string))
    (data_set : list (string * Labels.PyVal)) :
  match Labels.update_string_pointers str string_pointers data_set with
  | inr updated =>
      Labels.keys updated = Labels.keys string_pointers /\
      Forall (fun label =>
                exists val, Labels.get data_set (fst label) = Some val /\
                            snd label = Labels.label_text str (fst label) val)
        updated
  | inl e =>
      exists before attr old after,
        e = Labels.KeyError attr /\
        string_pointers = before ++ (attr, old) :: after /\
        Labels.get data_set attr = None /\
        Forall (fun label => is_Some (Labels.get data_set (fst label))) before
  end.
Proof.
  induction string_pointers as [|[attr pointer] rest IH]; simpl.
  - split; [reflexivity|constructor].
  - destruct (Labels.get data_set attr) as [val|] eqn:Hget.
    + destruct (Labels.update_string_pointers str rest data_set)
        as [e|rest'].
      * destruct IH as (before & a & old & after & -> & -> & Hnone & Hall).
        exists ((attr, pointer) :: before), a, old, after.
        split; [reflexivity|]. split; [reflexivity|]. split; [exact Hnone|].
        constructor; [simpl; rewrite Hget; eauto|exact Hall].
      * destruct IH as [Hkeys Hall]. split.
        -- unfold Labels.keys in *. simpl. rewrite Hkeys. reflexivity.
        -- constructor; [|exact Hall]. exists val. simpl. auto.
    + exists [], attr, pointer, rest. repeat split; auto.
Qed.

Lemma update_same_keys
    (str : Labels.PyVal -> string)
    (data_set : list (string * Labels.PyVal)) :
  forall (string_pointers : list (string * string)),
    NoDup (Labels.keys data_set) ->
    Labels.keys string_pointers = Labels.keys data_set ->
    (forall full,
        (forall item, item ∈ data_set -> item ∈ full) ->
        NoDup (Labels.keys full) ->
        Labels.update_string_pointers str string_pointers full
        = inr (Labels.generate_data_labels str data_set)).
Proof.
  induction data_set as [|[k v] d IH]; intros sp Hnd Hkeys full Hsub Hfull.
  - destruct sp; [reflexivity|discriminate].
  - destruct sp as [|[attr pointer] sp]; [discriminate|].
    unfold Labels.keys in *. simpl in *. injection Hkeys as -> Hkeys.
    assert (Hget : Labels.get full k = Some v).
    { assert (Hin : (k, v) ∈ full) by (apply Hsub; left).
      clear -Hin Hfull. induction full as [|[k' v'] full IHf].
      - inversion Hin.
      - apply NoDup_cons in Hfull as [Hnotin Hfull].
        apply elem_of_cons in Hin as [[= <- <-]|Hin].
        + apply get_first.
        + rewrite get_other; [apply IHf; assumption|].
          intros ->. apply Hnotin. apply list_elem_of_fmap.
          exists (k, v). split; [reflexivity|exact Hin]. }
    rewrite Hget. apply NoDup_cons in Hnd as [_ Hnd].
    rewrite (IH sp Hnd Hkeys full); [reflexivity| |exact Hfull].
    intros item Hitem. apply Hsub. right. exact Hitem.
Qed.

(** X16. If the labels have the keys of the data set, in the same order,
    [update_string_pointers] leaves exactly the labels that
    [generate_data_labels] makes from that data set: what a label showed
    before does not matter, so updating the freshly made labels with their
    own data set changes nothing, and after two updates only the second
    data set shows. In the main program, where every data set is a
    dictionary with the keys [temp] and [hum], the update with any later
    reading returns and shows that reading. *)
Theorem labels_show_latest_data
    (str : Labels.PyVal -> string)
    (string_pointers : list (string * string))
    (data_set : list (string * Labels.PyVal)) :
  NoDup (Labels.keys data_set) ->
  Labels.keys string_pointers = Labels.keys data_set ->
  Labels.update_string_pointers str string_pointers data_set
  = inr (Labels.generate_data_labels str data_set) /\
  Labels.update_string_pointers str
    (Labels.generate_data_labels str data_set) data_set
  = inr (Labels.generate_data_labels str data_set) /\
  (forall temp hum d,
      Labels.dict_of (Reading temp hum) = Some d ->
      Labels.keys data_set = ["temp"; "hum"] ->
      Labels.update_string_pointers str string_pointers d
      = inr [("temp", Labels.label_text str "temp" (Labels.VFloat temp));
             ("hum", Labels.label_text str "hum" (Labels.VFloat hum))]).
Proof.
  intros Hnd Hkeys. split; [|split].
  - apply (update_same_keys str data_set string_pointers Hnd Hkeys data_set);
      auto.
  - apply (update_same_keys str data_set _ Hnd); auto.
    unfold Labels.keys, Labels.generate_data_labels. rewrite map_map.
    reflexivity.
  - intros temp hum d [= <-] Hk. rewrite Hk in Hkeys.
    destruct string_pointers as [|[k1 p1] [|[k2 p2] [|]]]; try discriminate.
    injection Hkeys as -> ->. reflexivity.
Qed.

Lemma labels_show_latest_data_witness :
  Labels.update_string_pointers Labels.show
    (Labels.generate_data_labels Labels.show (Labels.get_mock_data 20 50))
    (Labels.get_mock_data 21 49)
  = inr [("temp", "temp: 21"); ("hum", "hum: 49")].
Proof.
  destruct (labels_show_latest_data Labels.show
              (Labels.generate_data_labels Labels.show
                 (Labels.get_mock_data 20 50))
              (Labels.get_mock_data 21 49)) as (H & _).
  - unfold Labels.keys. simpl. apply (bool_decide_unpack _). reflexivity.
  - reflexivity.
  - exact H.
Defined.

(** X17. The labels of [screen/test.py]. Labels made from one
    [get_mock_data()] and updated from another show the second draw; the
    update never raises. Updated from [get_data] they show the rounded
    temperature and humidity, and the motion flag is not shown. Labels made
    from [get_data] cannot be updated from [get_mock_data]: that raises
    [KeyError('motion')]. *)
Theorem test_py_labels
    (str : Labels.PyVal -> string)
    (t1 h1 t2 h2 : Z) (sensed : float * float) (motion : bool) :
  Labels.update_string_pointers str
    (Labels.generate_data_labels str (Labels.get_mock_data t1 h1))
    (Labels.get_mock_data t2 h2)
  = inr (Labels.generate_data_labels str (Labels.get_mock_data t2 h2)) /\
  Labels.update_string_pointers str
    (Labels.generate_data_labels str (Labels.get_mock_data t1 h1))
    (Labels.get_data sensed motion)
  = inr [("temp", Labels.label_text str "temp"
                    (Labels.VFloat (round (snd sensed) 2)));
         ("hum", Labels.label_text str "hum"
                   (Labels.VFloat (round (fst sensed) 2)))] /\
  Labels.update_string_pointers str
    (Labels.generate_data_labels str (Labels.get_data sensed motion))
    (Labels.get_mock_data t2 h2)
  = inl (Labels.KeyError "motion").
Proof. repeat split. Qed.

(** X18. The sleep timer label is always found. Whatever the settings,
    the update of the sleep timer in the loop raises neither [NameError]
    nor [KeyError]: it looks for the label only when the debug panel and
    the sleep timer are both enabled, and then the debug labels exist and
    have that key. After the update the label shows the timer text and the
    label of the host address is as it was made. *)
Theorem sleep_timer_label_always_found
    (timer_str : float -> Settings -> string)
    (cfg : Settings) (ip : string) (time_passed : float) :
  exists after,
    Labels.set_sleep_timer timer_str cfg
      (Labels.debug_string_pointers cfg ip) time_passed = inr after /\
    (display_debug_panel cfg && display_sleep_timer cfg = false ->
     after = Labels.debug_string_pointers cfg ip) /\
    (display_debug_panel cfg && display_sleep_timer cfg = true ->
     exists d,
       after = Some d /\
       Labels.keys d = Labels.keys (Labels.generate_debug_labels cfg ip) /\
       Labels.get d "display_sleep_timer"
       = Some (timer_str (round time_passed 1) cfg) /\
       Labels.get d "display_host_ip"
       = Labels.get (Labels.generate_debug_labels cfg ip) "display_host_ip").
Proof.
  unfold Labels.set_sleep_timer, Labels.debug_string_pointers,
    Labels.generate_debug_labels.
  destruct (display_debug_panel cfg), (display_sleep_timer cfg),
    (display_host_ip cfg); simpl;
    eexists; (split; [reflexivity|]);
    (split; [intros H; try discriminate H; reflexivity|]);
    intros H; try discriminate H;
    eexists; repeat split.
Qed.

(** ** The capture thread and the render loop side by side *)


